(** * HCP Terraform Run Task validator: the Lambda handler, verified

    A shallow embedding of [examples/01_run_task_resources/lambda/main.py]:
    the four helpers ([get_parameter], [get_plan_json], [verify_hmac],
    [notify_result]) and [handler], together with the parts of the Python
    runtime they rest on.

    Conventions.
    - A Python [str] is represented by its UTF-8 encoding, a Rocq [string];
      [s.encode()] is then the list of its bytes, and a [str] is ASCII-only
      exactly when every byte is below 128.  Strings holding lone
      surrogates have no UTF-8 encoding and are outside the model.
    - Values of type [Any] (the event, the parsed body, the plan document)
      are values of [pyval], the Python image of a JSON document.
    - A Python exception that derives from [Exception] is a value of [exn];
      a computation that may raise returns a [result].
    - Outbound calls and writes to stdout are recorded in a log of
      [action]s, so that "this helper was not invoked" is a statement
      about the log. *)

From Stdlib Require Import ZArith List Ascii Strings.Byte Bool Lia.
From Stdlib Require String.
From stdpp Require Import base option list gmap strings pretty.

Import ListNotations.
Local Open Scope Z_scope.
Set Warnings "-register-all".

(* ===================================================================== *)
(** ** hashlib.sha512 (FIPS 180-4, section 6.4) *)
(* ===================================================================== *)

Module SHA512.

(** 64-bit words are integers in [0, 2^64); additions wrap around.
    [wrap] keeps the low 64 bits, which is the remainder modulo 2^64
    (lemma [wrap_mod] below). *)
Definition mask : Z := 0xffffffffffffffff.
Definition wrap (x : Z) : Z := Z.land x mask.
Definition add64 (x y : Z) : Z := wrap (x + y).
Definition not64 (x : Z) : Z := Z.lxor x mask.
Definition shr (n x : Z) : Z := Z.shiftr x n.
Definition rotr (n x : Z) : Z :=
  Z.lor (Z.shiftr x n) (wrap (Z.shiftl x (64 - n))).

Definition Ch (x y z : Z) : Z :=
  Z.lxor (Z.land x y) (Z.land (not64 x) z).
Definition Maj (x y z : Z) : Z :=
  Z.lxor (Z.lxor (Z.land x y) (Z.land x z)) (Z.land y z).
Definition Sigma0 (x : Z) : Z :=
  Z.lxor (Z.lxor (rotr 28 x) (rotr 34 x)) (rotr 39 x).
Definition Sigma1 (x : Z) : Z :=
  Z.lxor (Z.lxor (rotr 14 x) (rotr 18 x)) (rotr 41 x).
Definition sigma0 (x : Z) : Z :=
  Z.lxor (Z.lxor (rotr 1 x) (rotr 8 x)) (shr 7 x).
Definition sigma1 (x : Z) : Z :=
  Z.lxor (Z.lxor (rotr 19 x) (rotr 61 x)) (shr 6 x).

(** Round constants: the first 64 bits of the fractional parts of the
    cube roots of the first eighty primes. *)
Definition K : list Z :=
  [ 0x428a2f98d728ae22; 0x7137449123ef65cd; 0xb5c0fbcfec4d3b2f;
    0xe9b5dba58189dbbc; 0x3956c25bf348b538; 0x59f111f1b605d019;
    0x923f82a4af194f9b; 0xab1c5ed5da6d8118; 0xd807aa98a3030242;
    0x12835b0145706fbe; 0x243185be4ee4b28c; 0x550c7dc3d5ffb4e2;
    0x72be5d74f27b896f; 0x80deb1fe3b1696b1; 0x9bdc06a725c71235;
    0xc19bf174cf692694; 0xe49b69c19ef14ad2; 0xefbe4786384f25e3;
    0x0fc19dc68b8cd5b5; 0x240ca1cc77ac9c65; 0x2de92c6f592b0275;
    0x4a7484aa6ea6e483; 0x5cb0a9dcbd41fbd4; 0x76f988da831153b5;
    0x983e5152ee66dfab; 0xa831c66d2db43210; 0xb00327c898fb213f;
    0xbf597fc7beef0ee4; 0xc6e00bf33da88fc2; 0xd5a79147930aa725;
    0x06ca6351e003826f; 0x142929670a0e6e70; 0x27b70a8546d22ffc;
    0x2e1b21385c26c926; 0x4d2c6dfc5ac42aed; 0x53380d139d95b3df;
    0x650a73548baf63de; 0x766a0abb3c77b2a8; 0x81c2c92e47edaee6;
    0x92722c851482353b; 0xa2bfe8a14cf10364; 0xa81a664bbc423001;
    0xc24b8b70d0f89791; 0xc76c51a30654be30; 0xd192e819d6ef5218;
    0xd69906245565a910; 0xf40e35855771202a; 0x106aa07032bbd1b8;
    0x19a4c116b8d2d0c8; 0x1e376c085141ab53; 0x2748774cdf8eeb99;
    0x34b0bcb5e19b48a8; 0x391c0cb3c5c95a63; 0x4ed8aa4ae3418acb;
    0x5b9cca4f7763e373; 0x682e6ff3d6b2b8a3; 0x748f82ee5defb2fc;
    0x78a5636f43172f60; 0x84c87814a1f0ab72; 0x8cc702081a6439ec;
    0x90befffa23631e28; 0xa4506cebde82bde9; 0xbef9a3f7b2c67915;
    0xc67178f2e372532b; 0xca273eceea26619c; 0xd186b8c721c0c207;
    0xeada7dd6cde0eb1e; 0xf57d4f7fee6ed178; 0x06f067aa72176fba;
    0x0a637dc5a2c898a6; 0x113f9804bef90dae; 0x1b710b35131c471b;
    0x28db77f523047d84; 0x32caab7b40c72493; 0x3c9ebe0a15c9bebc;
    0x431d67c49c100d4c; 0x4cc5d4becb3e42b6; 0x597f299cfc657e2a;
    0x5fcb6fab3ad6faec; 0x6c44198c4a475817 ].

(** The eight working variables, and the chaining value. *)
Record regs : Type := Regs {
  ra : Z; rb : Z; rc : Z; rd : Z; re : Z; rf : Z; rg : Z; rh : Z
}.

(** Initial hash value: fractional parts of the square roots of the
    first eight primes. *)
Definition H0 : regs :=
  Regs 0x6a09e667f3bcc908 0xbb67ae8584caa73b 0x3c6ef372fe94f82b
       0xa54ff53a5f1d36f1 0x510e527fade682d1 0x9b05688c2b3e6c1f
       0x1f83d9abfb41bd6b 0x5be0cd19137e2179.

(** Message schedule.  [window] holds W(t-16) .. W(t-1); each step emits
    its oldest word and appends W(t). *)
Definition next_word (window : list Z) : Z :=
  add64 (add64 (sigma1 (nth 14 window 0)) (nth 9 window 0))
        (add64 (sigma0 (nth 1 window 0)) (nth 0 window 0)).

Fixpoint schedule (steps : nat) (window : list Z) : list Z :=
  match steps with
  | O => []
  | S steps' =>
      nth 0 window 0 :: schedule steps' (tl window ++ [next_word window])
  end.

Definition round (s : regs) (kw : Z * Z) : regs :=
  let t1 := add64 (add64 (add64 (rh s) (Sigma1 (re s)))
                         (add64 (Ch (re s) (rf s) (rg s)) (fst kw)))
                  (snd kw) in
  let t2 := add64 (Sigma0 (ra s)) (Maj (ra s) (rb s) (rc s)) in
  Regs (add64 t1 t2) (ra s) (rb s) (rc s) (add64 (rd s) t1)
       (re s) (rf s) (rg s).

Definition add_regs (x y : regs) : regs :=
  Regs (add64 (ra x) (ra y)) (add64 (rb x) (rb y)) (add64 (rc x) (rc y))
       (add64 (rd x) (rd y)) (add64 (re x) (re y)) (add64 (rf x) (rf y))
       (add64 (rg x) (rg y)) (add64 (rh x) (rh y)).

(** One 1024-bit block, given as sixteen big-endian words. *)
Definition compress (h : regs) (block : list Z) : regs :=
  add_regs h (fold_left round (combine K (schedule 80 block)) h).

(** Big-endian conversions between bytes and integers. *)
Definition be_to_Z (bs : list byte) : Z :=
  fold_left (fun acc b => acc * 256 + Z.of_N (Byte.to_N b)) bs 0.

(** The low eight bits of [x], as a byte. *)
Definition byte_of_Z (x : Z) : byte :=
  match Byte.of_N (Z.to_N (Z.land x 0xff)) with
  | Some b => b
  | None => x00
  end.

Fixpoint Z_to_be (width : nat) (x : Z) : list byte :=
  match width with
  | O => []
  | S width' =>
      Z_to_be width' (Z.shiftr x 8) ++ [byte_of_Z x]
  end.

Fixpoint words_of (count : nat) (bs : list byte) : list Z :=
  match count with
  | O => []
  | S count' => be_to_Z (firstn 8 bs) :: words_of count' (skipn 8 bs)
  end.

(** Padding (section 5.1.2): a one bit, zeros up to 112 modulo 128 bytes,
    then the bit length on sixteen bytes. *)
Definition padding (len : Z) : list byte :=
  [x80] ++ repeat x00 (Z.to_nat ((111 - len) mod 128))
        ++ Z_to_be 16 (8 * len).

Definition pad (msg : list byte) : list byte :=
  msg ++ padding (Z.of_nat (length msg)).

Fixpoint absorb (blocks : nat) (h : regs) (bs : list byte) : regs :=
  match blocks with
  | O => h
  | S blocks' =>
      absorb blocks' (compress h (words_of 16 (firstn 128 bs)))
             (skipn 128 bs)
  end.

Definition output (h : regs) : list byte :=
  Z_to_be 8 (ra h) ++ Z_to_be 8 (rb h) ++ Z_to_be 8 (rc h)
    ++ Z_to_be 8 (rd h) ++ Z_to_be 8 (re h) ++ Z_to_be 8 (rf h)
    ++ Z_to_be 8 (rg h) ++ Z_to_be 8 (rh h).

Definition digest (msg : list byte) : list byte :=
  let padded := pad msg in
  output (absorb (length padded / 128)%nat H0 padded).

Definition block_size : nat := 128.

End SHA512.

(* ===================================================================== *)
(** ** hmac.new(key, msg, hashlib.sha512) (RFC 2104) and hexdigest *)
(* ===================================================================== *)

Module HMAC.

Definition xor_byte (c : Z) (b : byte) : byte :=
  SHA512.byte_of_Z (Z.lxor c (Z.of_N (Byte.to_N b))).

(** Keys longer than a block are hashed first; shorter ones are
    zero-padded to the block size. *)
Definition block_key (key : list byte) : list byte :=
  let k := if (SHA512.block_size <? length key)%nat
           then SHA512.digest key else key in
  k ++ repeat x00 (SHA512.block_size - length k)%nat.

Definition digest (key msg : list byte) : list byte :=
  let k := block_key key in
  SHA512.digest (map (xor_byte 0x5c) k
                   ++ SHA512.digest (map (xor_byte 0x36) k ++ msg)).

Definition hex_digit (n : N) : ascii :=
  ascii_of_N (if (n <? 10)%N then 48 + n else 87 + n)%N.

Fixpoint hex (bs : list byte) : string :=
  match bs with
  | [] => EmptyString
  | b :: bs' =>
      String (hex_digit (Byte.to_N b / 16)%N)
        (String (hex_digit (Byte.to_N b mod 16)%N) (hex bs'))
  end.

(** [hmac.new(key, msg, hashlib.sha512).hexdigest()] *)
Definition hexdigest (key msg : list byte) : string :=
  hex (digest key msg).

End HMAC.

(* ===================================================================== *)
(** ** Python values, exceptions, and the effects of a request *)
(* ===================================================================== *)

(** The Python image of a JSON document.  A [dict] keeps insertion order,
    which [json.dumps] reproduces; [float]s are kept as their literal, no
    arithmetic is ever done on them here. *)
Inductive pyval : Type :=
| PNone
| PBool (b : bool)
| PInt (n : Z)
| PFloat (literal : string)
| PStr (s : string)
| PList (items : list pyval)
| PDict (entries : list (string * pyval)).

Abbreviation dict := (list (string * pyval)).

(** [type(v).__name__] *)
Definition type_name (v : pyval) : string :=
  match v with
  | PNone => "NoneType"
  | PBool _ => "bool"
  | PInt _ => "int"
  | PFloat _ => "float"
  | PStr _ => "str"
  | PList _ => "list"
  | PDict _ => "dict"
  end.

(** An exception deriving from [Exception]: its class and [str(e)]. *)
Record exn : Type := Exn { exn_class : string; exn_str : string }.

Inductive result (A : Type) : Type :=
| Ok (a : A)
| Raise (e : exn).
Arguments Ok {A} a.
Arguments Raise {A} e.

#[global] Instance result_ret : MRet result := fun _ a => Ok a.
#[global] Instance result_bind : MBind result := fun _ _ k r =>
  match r with
  | Ok a => k a
  | Raise e => Raise e
  end.

(** An HTTP request as built by [urllib.request.Request]. *)
Record request : Type := Request {
  req_method : string;
  req_url : pyval;
  req_headers : list (string * string);
  req_data : option (list byte)
}.

(** What a run of the handler does to the outside, in order. *)
Inductive action : Type :=
| Invoke_get_parameter (name : string)
| Invoke_get_plan_json (request_body : pyval)
| Invoke_verify_hmac (payload signature secret : pyval)
| Invoke_notify_result (request_body : pyval) (status message : string)
| Urlopen (req : request)
| Print (line : string).

(** A computation: the actions it performed, and its value or the
    exception that ended it.  Actions performed before an exception stay
    performed. *)
Definition io (A : Type) : Type := (list action * result A)%type.

Definition log {A} (m : io A) : list action := fst m.
Definition outcome {A} (m : io A) : result A := snd m.

#[global] Instance io_ret : MRet io := fun _ a => ([], Ok a).
#[global] Instance io_bind : MBind io := fun _ _ k m =>
  match m with
  | (l, Ok a) => let (l', r) := k a in (l ++ l', r)
  | (l, Raise e) => (l, Raise e)
  end.

Definition tell (a : action) : io unit := ([a], Ok tt).
Definition lift {A} (r : result A) : io A := ([], r).

(** [try: m except Exception as e: h e] *)
Definition try_except {A} (m : io A) (h : exn -> io A) : io A :=
  match m with
  | (l, Ok a) => (l, Ok a)
  | (l, Raise e) => let (l', r) := h e in (l ++ l', r)
  end.

(** [m] with the actions [l] performed before it. *)
Definition prepend {A} (l : list action) (m : io A) : io A :=
  (l ++ log m, outcome m).

(** *** Operations on values *)

Definition encode (s : string) : list byte := String.list_byte_of_string s.

Definition key_error {A} (key : string) : result A :=
  Raise (Exn "KeyError" ("'" +:+ key +:+ "'")).

Definition no_attribute {A} (v : pyval) (attr : string) : result A :=
  Raise (Exn "AttributeError"
           ("'" +:+ type_name v +:+ "' object has no attribute '"
                +:+ attr +:+ "'")).

Fixpoint dict_get (d : dict) (key : string) : option pyval :=
  match d with
  | [] => None
  | (k, v) :: d' => if String.eqb k key then Some v else dict_get d' key
  end.

(** [d[key]] on a [dict] *)
Definition dict_getitem (d : dict) (key : string) : result pyval :=
  match dict_get d key with
  | Some v => Ok v
  | None => key_error key
  end.

(** [v.get(key, dflt)]: only a [dict] has the method. *)
Definition py_get (v : pyval) (key : string) (dflt : pyval) : result pyval :=
  match v with
  | PDict d => Ok (default dflt (dict_get d key))
  | _ => no_attribute v "get"
  end.

(** [v[key]] with a [str] key *)
Definition py_getitem (v : pyval) (key : string) : result pyval :=
  match v with
  | PDict d => dict_getitem d key
  | PList _ =>
      Raise (Exn "TypeError" "list indices must be integers or slices, not str")
  | PStr _ =>
      Raise (Exn "TypeError" "string indices must be integers, not 'str'")
  | _ =>
      Raise (Exn "TypeError"
               ("'" +:+ type_name v +:+ "' object is not subscriptable"))
  end.

(** [v.encode()] *)
Definition py_encode (v : pyval) : result (list byte) :=
  match v with
  | PStr s => Ok (encode s)
  | _ => no_attribute v "encode"
  end.

(** [v == "literal"] *)
Definition py_eq_str (v : pyval) (literal : string) : bool :=
  match v with
  | PStr s => String.eqb s literal
  | _ => false
  end.

Fixpoint is_ascii (s : string) : bool :=
  match s with
  | EmptyString => true
  | String c s' => (N_of_ascii c <? 128)%N && is_ascii s'
  end.

(** [hmac.compare_digest(a, b)]: two [str] are compared only when both
    are ASCII; any other combination reachable here is a [TypeError].  The
    comparison takes time independent of the contents, which this model
    does not observe. *)
Definition compare_digest (a b : pyval) : result bool :=
  match a, b with
  | PStr x, PStr y =>
      if is_ascii x && is_ascii y then Ok (String.eqb x y)
      else Raise (Exn "TypeError"
             "comparing strings with non-ASCII characters is not supported")
  | _, _ =>
      Raise (Exn "TypeError"
               ("unsupported operand types(s) or combination of types: '"
                  +:+ type_name a +:+ "' and '" +:+ type_name b +:+ "'"))
  end.

Definition py_bool_str (b : bool) : string := if b then "True" else "False".

(** [s.lower()] on the ASCII letters, which is how header names that
    differ only by capitalization are identified. *)
Definition lower_ascii (c : ascii) : ascii :=
  let n := N_of_ascii c in
  if ((65 <=? n) && (n <=? 90))%N then ascii_of_N (n + 32) else c.

Fixpoint lower (s : string) : string :=
  match s with
  | EmptyString => EmptyString
  | String c s' => String (lower_ascii c) (lower s')
  end.

(** A [datetime.datetime]; [utcoffset] in seconds when the value is aware. *)
Record datetime : Type := Datetime {
  year : Z; month : Z; day : Z;
  hour : Z; minute : Z; second : Z; microsecond : Z;
  utcoffset : option Z
}.

(** The library functions the program calls and that are taken as given:
    [json], [repr], [datetime.fromisoformat] and [traceback]. *)
Class PyLib : Type := {
  (** [json.loads] on a [str] *)
  json_loads : string -> result pyval;
  (** [json.loads] on the [bytes] of an HTTP response *)
  json_loads_bytes : list byte -> result pyval;
  (** [json.dumps] *)
  json_dumps : pyval -> string;
  (** [repr], which is also [str] on every value that is not a [str] *)
  repr : pyval -> string;
  (** [datetime.datetime.fromisoformat] on a [str] *)
  fromisoformat : string -> result datetime;
  (** [traceback.format_exc()] while the exception is being handled *)
  format_exc : exn -> string
}.

(** The outside of one invocation: the process environment, and what the
    network answers.  [urlopen] stands for building the
    [urllib.request.Request], opening it and, where the program reads the
    response, reading it; it raises what any of these raises.  Within one
    invocation no two requests are equal, so a function of the request
    loses nothing. *)
Record world : Type := World {
  environ : gmap string string;
  urlopen : request -> result (list byte)
}.

(* ===================================================================== *)
(** ** The program: main.py *)
(* ===================================================================== *)

(** The response of the Lambda function URL:
    [{"statusCode": ..., "body": ...}]. *)
Record response : Type := Response { statusCode : Z; body : string }.

Section Program.

Context `{PyLib}.

(** An f-string field [{v}]: [str(v)]. *)
Definition py_str (v : pyval) : string :=
  match v with
  | PStr s => s
  | _ => repr v
  end.

(** [json.loads(v)] *)
Definition py_json_loads (v : pyval) : result pyval :=
  match v with
  | PStr s => json_loads s
  | _ =>
      Raise (Exn "TypeError"
               ("the JSON object must be str, bytes or bytearray, not "
                  +:+ type_name v))
  end.

(** [datetime.datetime.fromisoformat(v)] *)
Definition py_fromisoformat (v : pyval) : result datetime :=
  match v with
  | PStr s => fromisoformat s
  | _ => Raise (Exn "TypeError" "fromisoformat: argument must be str")
  end.

(** [urllib.request.urlopen(urllib.request.Request(...))], and
    [res.read()] where the caller reads the response. *)
Definition send (w : world) (req : request) : io (list byte) :=
  tell (Urlopen req);;
  lift (urlopen w req).

(** main.py, lines 11-31 *)
Definition get_parameter (w : world) (name : string) : io pyval :=
  tell (Invoke_get_parameter name);;
  let url :=
    "http://localhost:2773/systemsmanager/parameters/get?name="
      +:+ name +:+ "&withDecryption=true" in
  let headers :=
    [("X-Aws-Parameters-Secrets-Token",
      default "" (environ w !! "AWS_SESSION_TOKEN"))] in
  let req := Request "GET" (PStr url) headers None in
  res ← send w req;
  response ← lift (json_loads_bytes res);
  parameter ← lift (py_getitem response "Parameter");
  lift (py_getitem parameter "Value").

(** main.py, lines 34-53 *)
Definition get_plan_json (w : world) (request_body : pyval) : io pyval :=
  tell (Invoke_get_plan_json request_body);;
  url ← lift (py_get request_body "plan_json_api_url" PNone);
  access_token ← lift (py_get request_body "access_token" PNone);
  let headers :=
    [("Authorization", "Bearer " +:+ py_str access_token);
     ("Content-type", "application/vnd.api+json")] in
  let req := Request "GET" url headers None in
  res ← send w req;
  lift (json_loads_bytes res).

(** main.py, lines 56-72.  The arguments of [hmac.new] are evaluated
    left to right: the secret is encoded first. *)
Definition verify_hmac (payload signature secret : pyval) : result bool :=
  key ← py_encode secret;
  msg ← py_encode payload;
  let computed := HMAC.hexdigest key msg in
  compare_digest (PStr computed) signature.

(** The document sent to the callback and echoed in the response. *)
Definition task_results (status message : string) : pyval :=
  PDict [("data",
          PDict [("type", PStr "task-results");
                 ("attributes",
                  PDict [("status", PStr status);
                         ("message", PStr message)])])].

(** main.py, lines 75-103 *)
Definition notify_result (w : world) (request_body : pyval)
    (status message : string) : io unit :=
  tell (Invoke_notify_result request_body status message);;
  callback_url ← lift (py_get request_body "task_result_callback_url" PNone);
  access_token ← lift (py_get request_body "access_token" PNone);
  let headers :=
    [("Authorization", "Bearer " +:+ py_str access_token);
     ("Content-Type", "application/vnd.api+json")] in
  let payload := task_results status message in
  let data := encode (json_dumps payload) in
  let req := Request "PATCH" callback_url headers (Some data) in
  send w req;;
  mret tt.

(** [os.environ[key]] *)
Definition environ_getitem (w : world) (key : string) : result string :=
  match environ w !! key with
  | Some v => Ok v
  | None => key_error key
  end.

Definition message_body (message : string) : string :=
  json_dumps (PDict [("message", PStr message)]).

(** main.py, lines 192-200: the [except Exception as e] clause. *)
Definition internal_error (e : exn) : io response :=
  tell (Print ("Error: " +:+ exn_str e));;
  tell (Print ("Traceback: " +:+ format_exc e));;
  mret (Response 500 (message_body ("Internal error: " +:+ exn_str e))).

(** main.py, lines 106-200.  [context] is not used. *)
Definition handler (w : world) (event : dict) (context : pyval)
    : io response :=
  try_except
    (name ← lift (environ_getitem w "HMAC_SECRET_KEY_PARAM");
     hmac_key ← get_parameter w name;
     body ← lift (py_json_loads
                    (default (PStr "{}") (dict_get event "body")));
     let headers := default (PDict []) (dict_get event "headers") in
     signature ← lift (py_get headers "x-tfc-task-signature" (PStr ""));
     raw ← lift (dict_getitem event "body");
     tell (Invoke_verify_hmac raw signature hmac_key);;
     verified ← lift (verify_hmac raw signature hmac_key);
     if negb verified then
       mret (Response 401 (message_body "Invalid signature"))
     else
       level ← lift (py_get body "task_result_enforcement_level" PNone);
       if py_eq_str level "test" then
         mret (Response 200
                 (json_dumps
                    (task_results "passed" "Configuration successful")))
       else
         plan_json ← get_plan_json w body;
         timestamp ← lift (py_getitem plan_json "timestamp");
         plan_timestamp ← lift (py_fromisoformat timestamp);
         let '(validation_passed, message) :=
           if minute plan_timestamp mod 2 =? 0
           then (true, "Validation passed")
           else (false, "Validation failed") in
         tell (Print ("validation_passed = "
                        +:+ py_bool_str validation_passed));;
         let status := if validation_passed : bool
                       then "passed" else "failed" in
         tell (Print ("status = " +:+ status));;
         notify_result w body status message;;
         mret (Response 200 (json_dumps (task_results status message))))
    internal_error.

End Program.

(* ===================================================================== *)
(** ** Vocabulary of the specification *)
(* ===================================================================== *)

Section Observations.

Context `{PyLib}.

(** Line 130: the secret the request is checked against. *)
Definition resolve_secret (w : world) : io pyval :=
  name ← lift (environ_getitem w "HMAC_SECRET_KEY_PARAM");
  get_parameter w name.

Definition secret_of (w : world) : result pyval :=
  outcome (resolve_secret w).

(** Line 133: the request body, parsed. *)
Definition parsed_body (event : dict) : result pyval :=
  py_json_loads (default (PStr "{}") (dict_get event "body")).

(** Lines 134-135: the signature taken from the headers. *)
Definition signature_of (event : dict) : result pyval :=
  py_get (default (PDict []) (dict_get event "headers"))
         "x-tfc-task-signature" (PStr "").

(** Line 162: what the plan fetch gives. *)
Definition fetched_plan (w : world) (request_body : pyval) : result pyval :=
  outcome (get_plan_json w request_body).

(** Line 163: the timestamp of a plan document. *)
Definition plan_timestamp_of (plan_json : pyval) : result datetime :=
  timestamp ← py_getitem plan_json "timestamp";
  py_fromisoformat timestamp.

(** Line 178: whether the callback went through. *)
Definition notified (w : world) (request_body : pyval)
    (status message : string) : result unit :=
  outcome (notify_result w request_body status message).

Definition is_plan_fetch (a : action) : bool :=
  match a with Invoke_get_plan_json _ => true | _ => false end.

Definition is_notification (a : action) : bool :=
  match a with Invoke_notify_result _ _ _ => true | _ => false end.

Definition is_verification (a : action) : bool :=
  match a with Invoke_verify_hmac _ _ _ => true | _ => false end.

(** The calls of each helper recorded in a log, in order. *)
Definition plan_fetches (l : list action) : list action :=
  List.filter is_plan_fetch l.

Definition notifications (l : list action) : list action :=
  List.filter is_notification l.

Definition verifications (l : list action) : list action :=
  List.filter is_verification l.

(** The response of the [except] clause for the exception [e]. *)
Definition internal_error_response (e : exn) : response :=
  Response 500
    (json_dumps (PDict [("message", PStr ("Internal error: " +:+ exn_str e))])).

(** The verdict for a timestamp whose minute is [m]: status and message. *)
Definition verdict (m : Z) : string * string :=
  if Z.even m then ("passed", "Validation passed")
  else ("failed", "Validation failed").

(** What goes out on the network, in order: the requests of a log. *)
Fixpoint requests (l : list action) : list request :=
  match l with
  | [] => []
  | Urlopen req :: l' => req :: requests l'
  | _ :: l' => requests l'
  end.

(** Lines 24-28: the request [get_parameter] builds. *)
Definition parameter_request (w : world) (name : string) : request :=
  Request "GET"
    (PStr ("http://localhost:2773/systemsmanager/parameters/get?name="
             +:+ name +:+ "&withDecryption=true"))
    [("X-Aws-Parameters-Secrets-Token",
      default "" (environ w !! "AWS_SESSION_TOKEN"))]
    None.

(** Lines 43-50: the request [get_plan_json] builds from a [dict]. *)
Definition plan_request (request_body : dict) : request :=
  Request "GET"
    (default PNone (dict_get request_body "plan_json_api_url"))
    [("Authorization",
      "Bearer " +:+ py_str (default PNone
                              (dict_get request_body "access_token")));
     ("Content-type", "application/vnd.api+json")]
    None.

(** Lines 86-102: the request [notify_result] builds from a [dict]. *)
Definition callback_request (request_body : dict)
    (status message : string) : request :=
  Request "PATCH"
    (default PNone (dict_get request_body "task_result_callback_url"))
    [("Authorization",
      "Bearer " +:+ py_str (default PNone
                              (dict_get request_body "access_token")));
     ("Content-Type", "application/vnd.api+json")]
    (Some (encode (json_dumps (task_results status message)))).

(** Whether a value is a [str]. *)
Definition is_str (v : pyval) : bool :=
  match v with PStr _ => true | _ => false end.

(** Whether a value is a [dict]. *)
Definition is_dict (v : pyval) : bool :=
  match v with PDict _ => true | _ => false end.

End Observations.

(* ===================================================================== *)
(** ** Test doubles *)
(* ===================================================================== *)

(** Stand-ins for the library and for the network, used to run the
    program on concrete requests.  They agree with CPython on the
    documents listed in [documents] and on the timestamps listed in
    [timestamps]; anything else is rejected. *)
Module Doubles.

Definition dq : string := String (ascii_of_N 34) EmptyString.
Definition backslash : string := String (ascii_of_N 92) EmptyString.

Fixpoint escape (s : string) : string :=
  match s with
  | EmptyString => EmptyString
  | String c s' =>
      if (N_of_ascii c =? 34)%N then backslash +:+ dq +:+ escape s'
      else if (N_of_ascii c =? 92)%N
           then backslash +:+ backslash +:+ escape s'
           else String c (escape s')
  end.

Definition quote (s : string) : string := dq +:+ escape s +:+ dq.

(** [json.dumps] with its default separators. *)
Fixpoint dumps (v : pyval) : string :=
  match v with
  | PNone => "null"
  | PBool b => if b then "true" else "false"
  | PInt n => pretty n
  | PFloat literal => literal
  | PStr s => quote s
  | PList items => "[" +:+ String.concat ", " (map dumps items) +:+ "]"
  | PDict entries =>
      "{" +:+ String.concat ", "
                (map (fun '(k, x) => quote k +:+ ": " +:+ dumps x) entries)
          +:+ "}"
  end.

Definition secret_name : string := "/run-task/hmac-key".
Definition secret_value : string := "s3cr3t".
Definition plan_url : string :=
  "https://app.terraform.io/api/v2/plans/plan-1/json-output".
Definition callback_url : string :=
  "https://app.terraform.io/api/v2/task-results/1/callback".

Definition secret_document : pyval :=
  PDict [("Parameter", PDict [("Value", PStr secret_value)])].

Definition handshake_payload : pyval :=
  PDict [("task_result_enforcement_level", PStr "test")].

Definition run_payload : pyval :=
  PDict [("task_result_enforcement_level", PStr "mandatory");
         ("plan_json_api_url", PStr plan_url);
         ("access_token", PStr "token-1");
         ("task_result_callback_url", PStr callback_url)].

Definition plan_at (timestamp : string) : pyval :=
  PDict [("timestamp", PStr timestamp)].

Definition even_minute : string := "2024-01-01T10:14:00+00:00".
Definition odd_minute : string := "2024-01-01T10:15:00+00:00".

Definition documents : list pyval :=
  [ PDict []; secret_document; handshake_payload; run_payload;
    plan_at even_minute; plan_at odd_minute ].

Definition timestamps : list (string * datetime) :=
  [ (even_minute, Datetime 2024 1 1 10 14 0 0 (Some 0));
    (odd_minute, Datetime 2024 1 1 10 15 0 0 (Some 0)) ].

Definition loads (s : string) : result pyval :=
  match List.find (fun v => String.eqb (dumps v) s) documents with
  | Some v => Ok v
  | None =>
      Raise (Exn "JSONDecodeError"
               "Expecting value: line 1 column 1 (char 0)")
  end.

Definition parse_timestamp (s : string) : result datetime :=
  match List.find (fun e => String.eqb (fst e) s) timestamps with
  | Some e => Ok (snd e)
  | None =>
      Raise (Exn "ValueError" ("Invalid isoformat string: '" +:+ s +:+ "'"))
  end.

Definition library : PyLib := {|
  json_loads := loads;
  json_loads_bytes := fun b => loads (String.string_of_list_byte b);
  json_dumps := dumps;
  repr := fun v => match v with PNone => "None" | _ => dumps v end;
  fromisoformat := parse_timestamp;
  format_exc := fun e =>
    "Traceback (most recent call last): "
      +:+ exn_class e +:+ ": " +:+ exn_str e
|}.

Definition is_url (v : pyval) (url : string) : bool :=
  match v with
  | PStr u => String.eqb u url
  | _ => false
  end.

(** A network that serves the secret, and answers the plan fetch and the
    callback as told. *)
Definition network (plan callback : result (list byte)) (req : request)
    : result (list byte) :=
  if String.eqb (req_method req) "GET"
     && is_url (req_url req)
          ("http://localhost:2773/systemsmanager/parameters/get?name="
             +:+ secret_name +:+ "&withDecryption=true")
  then Ok (encode (dumps secret_document))
  else if String.eqb (req_method req) "GET" && is_url (req_url req) plan_url
  then plan
  else if String.eqb (req_method req) "PATCH"
          && is_url (req_url req) callback_url
  then callback
  else Raise (Exn "URLError" "<urlopen error [Errno 111] Connection refused>").

Definition world_with (plan callback : result (list byte)) : world :=
  World (<["HMAC_SECRET_KEY_PARAM" := secret_name]>
           (<["AWS_SESSION_TOKEN" := "session-token"]> ∅))
        (network plan callback).

Definition plan_response (timestamp : string) : result (list byte) :=
  Ok (encode (dumps (plan_at timestamp))).

Definition unreachable : result (list byte) :=
  Raise (Exn "HTTPError" "HTTP Error 503: Service Unavailable").

Definition sign (raw : string) : string :=
  HMAC.hexdigest (encode secret_value) (encode raw).

(** The event of a signed request, with the signature under [header]. *)
Definition signed_event (header : string) (payload : pyval) : dict :=
  [("headers", PDict [(header, PStr (sign (dumps payload)))]);
   ("body", PStr (dumps payload))].

(** The letter e with an acute accent, U+00E9, in UTF-8. *)
Definition e_acute : string :=
  String (ascii_of_N 195) (String (ascii_of_N 169) EmptyString).

(** Worlds: every call answered; the plan with an odd minute; the plan
    unreachable; the callback unreachable. *)
Definition world_even : world :=
  world_with (plan_response even_minute) (Ok []).
Definition world_odd : world :=
  world_with (plan_response odd_minute) (Ok []).
Definition world_without_plan : world :=
  world_with unreachable (Ok []).
Definition world_without_callback : world :=
  world_with (plan_response even_minute) unreachable.

(** Events. *)
Definition handshake_event : dict :=
  signed_event "x-tfc-task-signature" handshake_payload.
Definition run_event : dict :=
  signed_event "x-tfc-task-signature" run_payload.
Definition capitalized_event : dict :=
  signed_event "X-Tfc-Task-Signature" handshake_payload.

Definition event_with (signature : string) (raw : string) : dict :=
  [("headers", PDict [("x-tfc-task-signature", PStr signature)]);
   ("body", PStr raw)].

Definition forged_event : dict :=
  event_with "deadbeef" (dumps handshake_payload).
Definition malformed_event : dict := event_with "deadbeef" "not json".
Definition non_ascii_event : dict :=
  event_with e_acute (dumps handshake_payload).
Definition bodyless_event : dict :=
  [("headers", PDict [("x-tfc-task-signature", PStr "deadbeef")])].

End Doubles.

(** More stand-ins, for the paths on which the secret store or the plan
    service misbehaves.  The library is the library of [Doubles] with two
    more documents. *)
Module MoreDoubles.

Import Doubles.

Definition numeric_secret_document : pyval :=
  PDict [("Parameter", PDict [("Value", PInt 7)])].

Definition more_documents : list pyval :=
  documents ++ [PList []; numeric_secret_document].

Definition loads_more (s : string) : result pyval :=
  match List.find (fun v => String.eqb (dumps v) s) more_documents with
  | Some v => Ok v
  | None =>
      Raise (Exn "JSONDecodeError"
               "Expecting value: line 1 column 1 (char 0)")
  end.

Definition library_more : PyLib := {|
  json_loads := loads_more;
  json_loads_bytes := fun b => loads_more (String.string_of_list_byte b);
  json_dumps := dumps;
  repr := fun v => match v with PNone => "None" | _ => dumps v end;
  fromisoformat := parse_timestamp;
  format_exc := fun e =>
    "Traceback (most recent call last): "
      +:+ exn_class e +:+ ": " +:+ exn_str e
|}.

(** A network that answers the three calls as told. *)
Definition network_with (secret plan callback : result (list byte))
    (req : request) : result (list byte) :=
  if String.eqb (req_method req) "GET"
     && is_url (req_url req)
          ("http://localhost:2773/systemsmanager/parameters/get?name="
             +:+ secret_name +:+ "&withDecryption=true")
  then secret
  else if String.eqb (req_method req) "GET" && is_url (req_url req) plan_url
  then plan
  else if String.eqb (req_method req) "PATCH"
          && is_url (req_url req) callback_url
  then callback
  else Raise (Exn "URLError" "<urlopen error [Errno 111] Connection refused>").

Definition document_response (v : pyval) : result (list byte) :=
  Ok (encode (dumps v)).

(** The process environment: complete, without the session token, and
    without the name of the secret. *)
Definition full_environ : gmap string string :=
  <["HMAC_SECRET_KEY_PARAM" := secret_name]>
    (<["AWS_SESSION_TOKEN" := "session-token"]> ∅).
Definition environ_without_token : gmap string string :=
  <["HMAC_SECRET_KEY_PARAM" := secret_name]> ∅.
Definition environ_without_name : gmap string string :=
  <["AWS_SESSION_TOKEN" := "session-token"]> ∅.

Definition good_network : request -> result (list byte) :=
  network_with (document_response secret_document)
               (plan_response even_minute) (Ok []).

Definition world_without_token : world :=
  World environ_without_token good_network.
Definition world_without_name : world :=
  World environ_without_name good_network.
Definition world_without_secret : world :=
  World full_environ
    (network_with unreachable (plan_response even_minute) (Ok [])).
Definition world_with_empty_secret_document : world :=
  World full_environ
    (network_with (document_response (PDict []))
                  (plan_response even_minute) (Ok [])).
Definition world_with_numeric_secret : world :=
  World full_environ
    (network_with (document_response numeric_secret_document)
                  (plan_response even_minute) (Ok [])).
Definition world_with_empty_plan : world :=
  World full_environ
    (network_with (document_response secret_document)
                  (document_response (PDict [])) (Ok [])).
(** The callback answers with bytes that are not JSON. *)
Definition world_with_chatty_callback : world :=
  World full_environ
    (network_with (document_response secret_document)
                  (plan_response even_minute) (Ok (encode "accepted"))).

(** The fields of [run_payload]. *)
Definition run_fields : dict :=
  [("task_result_enforcement_level", PStr "mandatory");
   ("plan_json_api_url", PStr plan_url);
   ("access_token", PStr "token-1");
   ("task_result_callback_url", PStr callback_url)].

(** A signed request whose body is the JSON list []. *)
Definition list_event : dict :=
  signed_event "x-tfc-task-signature" (PList []).

(** A request whose signature is a JSON number, not a string. *)
Definition numeric_signature_event : dict :=
  [("headers", PDict [("x-tfc-task-signature", PInt 42)]);
   ("body", PStr (dumps handshake_payload))].

End MoreDoubles.

(* ===================================================================== *)
(** ** Lemmas on the runtime model *)
(* ===================================================================== *)

Lemma wrap_mod x : SHA512.wrap x = x mod 2 ^ 64.
Proof. apply (Z.land_ones x 64). lia. Qed.

Lemma Z_to_be_length width x : length (SHA512.Z_to_be width x) = width.
Proof.
  revert x. induction width as [|n IH]; intros x; simpl; [reflexivity|].
  rewrite length_app, IH. simpl. lia.
Qed.

Lemma sha512_digest_length msg : length (SHA512.digest msg) = 64%nat.
Proof.
  unfold SHA512.digest, SHA512.output.
  rewrite !length_app, !Z_to_be_length. reflexivity.
Qed.

Lemma hex_length bs : String.length (HMAC.hex bs) = (2 * length bs)%nat.
Proof. induction bs as [|b bs IH]; simpl; [reflexivity | rewrite IH; lia]. Qed.

Lemma hexdigest_length key msg :
  String.length (HMAC.hexdigest key msg) = 128%nat.
Proof.
  unfold HMAC.hexdigest, HMAC.digest.
  rewrite hex_length, sha512_digest_length. reflexivity.
Qed.

Lemma hex_is_ascii bs : is_ascii (HMAC.hex bs) = true.
Proof.
  induction bs as [|b bs IH]; simpl; [reflexivity|].
  rewrite IH. destruct b; reflexivity.
Qed.

Lemma hexdigest_is_ascii key msg : is_ascii (HMAC.hexdigest key msg) = true.
Proof. apply hex_is_ascii. Qed.

Lemma hexdigest_nonempty key msg : HMAC.hexdigest key msg <> "".
Proof.
  intros E. pose proof (hexdigest_length key msg) as L.
  rewrite E in L. discriminate L.
Qed.

Lemma even_mod2 m : (m mod 2 =? 0) = Z.even m.
Proof.
  rewrite Zmod_even. destruct (Z.even m); reflexivity.
Qed.

(** *** Laws of the effect monad *)

Section IoLaws.

Context {A B : Type}.
Implicit Types (m : io A) (k : A -> io B) (l : list action).

Lemma bind_ok m k a :
  outcome m = Ok a -> m ≫= k = prepend (log m) (k a).
Proof.
  destruct m as [l r]; cbn. intros ->.
  unfold prepend. destruct (k a); reflexivity.
Qed.

Lemma bind_raise m k e :
  outcome m = Raise e -> m ≫= k = (log m, Raise e).
Proof. destruct m as [l r]; cbn. intros ->. reflexivity. Qed.

Lemma bind_lift_ok (r : result A) k a : r = Ok a -> lift r ≫= k = k a.
Proof. intros ->. cbn. destruct (k a); reflexivity. Qed.

Lemma bind_lift_raise (r : result A) k e :
  r = Raise e -> lift r ≫= k = ([], Raise e).
Proof. intros ->. reflexivity. Qed.

Lemma bind_prepend l m k : prepend l m ≫= k = prepend l (m ≫= k).
Proof.
  destruct m as [l0 [a|e]]; unfold prepend; cbn.
  - destruct (k a) as [l1 r1]; cbn. rewrite app_assoc. reflexivity.
  - reflexivity.
Qed.

Lemma try_prepend l m (h : exn -> io A) :
  try_except (prepend l m) h = prepend l (try_except m h).
Proof.
  destruct m as [l0 [a|e]]; unfold prepend; cbn; [reflexivity|].
  destruct (h e) as [l1 r1]; cbn. rewrite app_assoc. reflexivity.
Qed.

Lemma try_lift_raise (h : exn -> io A) e :
  try_except (lift (Raise e)) h = h e.
Proof. cbn. destruct (h e); reflexivity. Qed.

Lemma try_raise l (h : exn -> io A) e :
  try_except (l, Raise e) h = prepend l (h e).
Proof. cbn. destruct (h e); reflexivity. Qed.

Lemma try_mret (h : exn -> io A) a : try_except (mret a) h = mret a.
Proof. reflexivity. Qed.

Lemma log_prepend l m : log (prepend l m) = l ++ log m.
Proof. reflexivity. Qed.

Lemma outcome_prepend l m : outcome (prepend l m) = outcome m.
Proof. reflexivity. Qed.

End IoLaws.

Lemma bind_tell {B} (a : action) (m : io B) : (tell a;; m) = prepend [a] m.
Proof. cbn. destruct m; reflexivity. Qed.

Lemma prepend_raise {A} l l' (e : exn) :
  prepend l ((l', Raise e) : io A) = (l ++ l', Raise e).
Proof. reflexivity. Qed.

Lemma bind_lift_case {A B} (r : result A) (k : A -> io B) :
  lift r ≫= k = match r with Ok a => k a | Raise e => ([], Raise e) end.
Proof. destruct r as [a|e]; cbn; [destruct (k a)|]; reflexivity. Qed.

Lemma bind_case {A B} (m : io A) (k : A -> io B) :
  m ≫= k = match outcome m with
           | Ok a => prepend (log m) (k a)
           | Raise e => (log m, Raise e)
           end.
Proof.
  destruct m as [l [a|e]]; cbn; [|reflexivity].
  unfold prepend. destruct (k a); reflexivity.
Qed.

Lemma log_mret {A} (a : A) : log (mret a : io A) = [].
Proof. reflexivity. Qed.

Lemma outcome_mret {A} (a : A) : outcome (mret a : io A) = Ok a.
Proof. reflexivity. Qed.

(** *** Tactics to run the program *)

(** One statement forward, along the path the hypotheses describe. *)
Ltac step :=
  first
    [ erewrite bind_lift_ok by eassumption
    | erewrite bind_lift_raise by eassumption
    | erewrite bind_ok by eassumption
    | erewrite bind_raise by eassumption
    | rewrite bind_tell
    | rewrite bind_prepend
    | progress cbv beta iota zeta
    | progress cbn [negb]
    | match goal with
      | Hx : ?c = _ |- context [if ?c then _ else _] => rewrite Hx
      end ].

(** One statement forward, along every path. *)
Ltac fork :=
  first
    [ progress cbv beta iota zeta
    | match goal with
      | |- context [mbind ?k (lift ?r)] =>
          rewrite (bind_lift_case r k); destruct r eqn:?
      | |- context [mbind (fun _ => ?m') (tell ?a)] =>
          rewrite (bind_tell a m')
      | |- context [mbind ?k (prepend ?l ?m)] =>
          rewrite (bind_prepend l m k)
      | |- context [mbind ?k ?m] =>
          rewrite (bind_case m k); destruct (outcome m) eqn:?
      | |- context [if negb ?b then _ else _] =>
          is_var b; destruct b; cbn [negb]
      | |- context [if ?c then _ else _] =>
          lazymatch c with
          | true => fail
          | false => fail
          | _ => destruct c eqn:?
          end
      end ].

(** Once the program has run: what the [try] gives. *)
Ltac settle :=
  rewrite ?try_prepend, ?try_mret, ?try_raise,
    ?log_prepend, ?outcome_prepend, ?log_mret, ?outcome_mret.

(** *** What each helper leaves in the log *)

Section Calls.

Context `{PyLib}.
Variable p : action -> bool.
Hypothesis p_urlopen : forall req, p (Urlopen req) = false.

Lemma get_parameter_calls w name :
  List.filter p (log (get_parameter w name))
  = List.filter p [Invoke_get_parameter name].
Proof using p_urlopen.
  unfold get_parameter, send.
  repeat fork; settle; cbn; rewrite ?p_urlopen; reflexivity.
Qed.

Lemma get_plan_json_calls w request_body :
  List.filter p (log (get_plan_json w request_body))
  = List.filter p [Invoke_get_plan_json request_body].
Proof using p_urlopen.
  unfold get_plan_json, send.
  repeat fork; settle; cbn; rewrite ?p_urlopen; reflexivity.
Qed.

Lemma notify_result_calls w request_body status message :
  List.filter p (log (notify_result w request_body status message))
  = List.filter p [Invoke_notify_result request_body status message].
Proof using p_urlopen.
  unfold notify_result, send.
  repeat fork; settle; cbn; rewrite ?p_urlopen; reflexivity.
Qed.

End Calls.

(** *** Known answers for the hash: FIPS 180-4 "abc", RFC 4231 case 2 *)

Example sha512_abc :
  HMAC.hex (SHA512.digest (encode "abc")) =
  "ddaf35a193617abacc417349ae20413112e6fa4e89a97ea20a9eeee64b55d39a2192992a274fc1a836ba3c23a3feebbd454d4423643ce80e2a9ac94fa54ca49f".
Proof. vm_compute. reflexivity. Qed.

Example hmac_sha512_rfc4231_case2 :
  HMAC.hexdigest (encode "Jefe") (encode "what do ya want for nothing?") =
  "164b7a7bfcf819e2e395fbe73b56e0a387bd64222e831fd610270cd7ea2505549758bf75c05a994a6d034f65f8f0e6fdcaeab1a34d4a6b4b636e070a38bce737".
Proof. vm_compute. reflexivity. Qed.

(** *** verify_hmac on strings *)

Lemma verify_hmac_str payload signature secret :
  verify_hmac (PStr payload) (PStr signature) (PStr secret)
  = if is_ascii signature
    then Ok (String.eqb (HMAC.hexdigest (encode secret) (encode payload))
                        signature)
    else Raise (Exn "TypeError"
           "comparing strings with non-ASCII characters is not supported").
Proof.
  unfold verify_hmac, compare_digest; cbn [py_encode mbind result_bind].
  rewrite hexdigest_is_ascii. reflexivity.
Qed.

Lemma verify_hmac_accepts payload secret :
  verify_hmac (PStr payload)
              (PStr (HMAC.hexdigest (encode secret) (encode payload)))
              (PStr secret)
  = Ok true.
Proof.
  rewrite verify_hmac_str, hexdigest_is_ascii, String.eqb_refl. reflexivity.
Qed.

Lemma verify_hmac_rejects payload signature secret :
  is_ascii signature = true ->
  signature <> HMAC.hexdigest (encode secret) (encode payload) ->
  verify_hmac (PStr payload) (PStr signature) (PStr secret) = Ok false.
Proof.
  intros Hascii Hne. rewrite verify_hmac_str, Hascii.
  destruct (String.eqb_spec (HMAC.hexdigest (encode secret) (encode payload))
                            signature) as [E|E]; [|reflexivity].
  exfalso. apply Hne. symmetry. exact E.
Qed.

Lemma verify_hmac_empty_signature payload secret :
  verify_hmac (PStr payload) (PStr "") (PStr secret) = Ok false.
Proof.
  apply verify_hmac_rejects; [reflexivity|].
  intros E. symmetry in E. exact (hexdigest_nonempty _ _ E).
Qed.

(** *** The handler, path by path *)

Section HandlerFacts.

Context `{PyLib}.

Lemma internal_error_log e :
  log (internal_error e)
  = [Print ("Error: " +:+ exn_str e);
     Print ("Traceback: " +:+ format_exc e)].
Proof. reflexivity. Qed.

Lemma internal_error_outcome e :
  outcome (internal_error e) = Ok (internal_error_response e).
Proof. reflexivity. Qed.

Lemma secret_of_unfold w :
  secret_of w =
  match environ_getitem w "HMAC_SECRET_KEY_PARAM" with
  | Ok name => outcome (get_parameter w name)
  | Raise e => Raise e
  end.
Proof.
  unfold secret_of, resolve_secret. rewrite bind_lift_case.
  destruct (environ_getitem w "HMAC_SECRET_KEY_PARAM"); reflexivity.
Qed.

Lemma dict_getitem_some d key v :
  dict_get d key = Some v -> dict_getitem d key = Ok v.
Proof. unfold dict_getitem. intros ->. reflexivity. Qed.

Lemma dict_getitem_none d key :
  dict_get d key = None -> dict_getitem d key = key_error key.
Proof. unfold dict_getitem. intros ->. reflexivity. Qed.

Lemma dict_getitem_inv d key v :
  dict_getitem d key = Ok v -> dict_get d key = Some v.
Proof.
  unfold dict_getitem, key_error.
  destruct (dict_get d key); intros E; inversion E; reflexivity.
Qed.

End HandlerFacts.

Ltac calls :=
  unfold plan_fetches, notifications, verifications;
  settle; rewrite ?internal_error_log;
  rewrite ?List.filter_app;
  rewrite ?get_parameter_calls, ?get_plan_json_calls, ?notify_result_calls
    by reflexivity;
  cbn [List.filter is_plan_fetch is_notification is_verification app].

Ltac use_equations :=
  repeat match goal with Hx : ?x = _ |- context [?x] => rewrite Hx end.

Section HandlerPaths.

Context `{PyLib}.

(** Which verification the handler performs. *)
Lemma handler_verifications w event context :
  verifications (log (handler w event context)) =
  match secret_of w, parsed_body event, signature_of event,
        dict_getitem event "body" with
  | Ok key, Ok _, Ok sig, Ok raw => [Invoke_verify_hmac raw sig key]
  | _, _, _, _ => []
  end.
Proof.
  rewrite secret_of_unfold. unfold handler, parsed_body, signature_of.
  repeat fork; calls; reflexivity.
Qed.

(** When the plan is fetched. *)
Lemma handler_plan_fetches w event context :
  plan_fetches (log (handler w event context)) =
  match secret_of w, parsed_body event, signature_of event,
        dict_getitem event "body" with
  | Ok key, Ok request_body, Ok sig, Ok raw =>
      match verify_hmac raw sig key with
      | Ok true =>
          match py_get request_body "task_result_enforcement_level" PNone
          with
          | Ok level =>
              if py_eq_str level "test" then []
              else [Invoke_get_plan_json request_body]
          | Raise _ => []
          end
      | _ => []
      end
  | _, _, _, _ => []
  end.
Proof.
  rewrite secret_of_unfold. unfold handler, parsed_body, signature_of.
  repeat fork; calls; reflexivity.
Qed.

(** When the callback is notified, and of what. *)
Lemma handler_notifications w event context :
  notifications (log (handler w event context)) =
  match secret_of w, parsed_body event, signature_of event,
        dict_getitem event "body" with
  | Ok key, Ok request_body, Ok sig, Ok raw =>
      match verify_hmac raw sig key with
      | Ok true =>
          match py_get request_body "task_result_enforcement_level" PNone
          with
          | Ok level =>
              if py_eq_str level "test" then []
              else
                match fetched_plan w request_body with
                | Ok plan_json =>
                    match plan_timestamp_of plan_json with
                    | Ok ts =>
                        [Invoke_notify_result request_body
                           (verdict (minute ts)).1 (verdict (minute ts)).2]
                    | Raise _ => []
                    end
                | Raise _ => []
                end
          | Raise _ => []
          end
      | _ => []
      end
  | _, _, _, _ => []
  end.
Proof.
  rewrite secret_of_unfold.
  unfold handler, parsed_body, signature_of, fetched_plan,
    plan_timestamp_of, verdict.
  repeat fork; calls; cbn [mbind result_bind];
    use_equations; rewrite <- ?even_mod2; use_equations; reflexivity.
Qed.

(** The response, on every path. *)
Lemma handler_outcome w event context :
  outcome (handler w event context) =
  Ok match secret_of w, parsed_body event, signature_of event,
           dict_getitem event "body" with
     | Ok key, Ok request_body, Ok sig, Ok raw =>
         match verify_hmac raw sig key with
         | Ok true =>
             match py_get request_body "task_result_enforcement_level"
                          PNone with
             | Ok level =>
                 if py_eq_str level "test" then
                   Response 200
                     (json_dumps
                        (task_results "passed" "Configuration successful"))
                 else
                   match fetched_plan w request_body with
                   | Ok plan_json =>
                       match plan_timestamp_of plan_json with
                       | Ok ts =>
                           let status := (verdict (minute ts)).1 in
                           let message := (verdict (minute ts)).2 in
                           match notified w request_body status message
                           with
                           | Ok _ =>
                               Response 200
                                 (json_dumps (task_results status message))
                           | Raise e => internal_error_response e
                           end
                       | Raise e => internal_error_response e
                       end
                   | Raise e => internal_error_response e
                   end
             | Raise e => internal_error_response e
             end
         | Ok false =>
             Response 401
               (json_dumps (PDict [("message", PStr "Invalid signature")]))
         | Raise e => internal_error_response e
         end
     | Raise e, _, _, _
     | Ok _, Raise e, _, _
     | Ok _, Ok _, Raise e, _
     | Ok _, Ok _, Ok _, Raise e => internal_error_response e
     end.
Proof.
  rewrite secret_of_unfold.
  unfold handler, parsed_body, signature_of, fetched_plan,
    plan_timestamp_of, notified, verdict.
  repeat fork; settle; rewrite ?internal_error_outcome;
    cbn [mbind result_bind]; cbv zeta;
    use_equations; rewrite <- ?even_mod2; use_equations;
    cbn [fst snd]; use_equations; reflexivity.
Qed.

End HandlerPaths.

(* ===================================================================== *)
(** ** The claims of the specification *)
(* ===================================================================== *)

Section Claims.

Context `{PyLib}.

Implicit Types (w : world) (event : dict) (context : pyval).


(** Claim C3.  A signature-verified request whose parsed body carries
    [task_result_enforcement_level] equal to ["test"] is answered 200
    with status "passed" and message "Configuration successful";
    neither [get_plan_json] nor [notify_result] is invoked. *)
Theorem handshake_accepted w event context key raw sig request_body :
  secret_of w = Ok key ->
  dict_get event "body" = Some raw ->
  parsed_body event = Ok request_body ->
  signature_of event = Ok sig ->
  verify_hmac raw sig key = Ok true ->
  py_get request_body "task_result_enforcement_level" PNone
  = Ok (PStr "test") ->
  outcome (handler w event context)
  = Ok (Response 200
          (json_dumps
             (PDict [("data",
                PDict [("type", PStr "task-results");
                       ("attributes",
                        PDict [("status", PStr "passed");
                               ("message",
                                PStr "Configuration successful")])])])))
  /\ plan_fetches (log (handler w event context)) = []
  /\ notifications (log (handler w event context)) = [].
Proof.
  intros Hsecret Hbody Hparsed Hsig Hverify Hlevel.
  apply dict_getitem_some in Hbody.
  rewrite handler_outcome, handler_plan_fetches, handler_notifications.
  rewrite Hsecret, Hparsed, Hsig, Hbody, Hverify, Hlevel. auto.
Qed.

(** Claim C4.  On a signature-verified request that is not a handshake,
    when the plan is fetched and its timestamp parses, validation passes
    exactly when the minute of the timestamp is even: [notify_result] is
    called once, with "passed" and "Validation passed" for an even
    minute and with "failed" and "Validation failed" for an odd one, the
    value of [validation_passed] that is printed is the parity, and the
    200 response given once the callback went through echoes the same
    status and message in the task-results document. *)
Theorem validation_by_minute_parity
    w event context key raw sig request_body level plan_json ts :
  secret_of w = Ok key ->
  dict_get event "body" = Some raw ->
  parsed_body event = Ok request_body ->
  signature_of event = Ok sig ->
  verify_hmac raw sig key = Ok true ->
  py_get request_body "task_result_enforcement_level" PNone = Ok level ->
  py_eq_str level "test" = false ->
  fetched_plan w request_body = Ok plan_json ->
  plan_timestamp_of plan_json = Ok ts ->
  let status := if Z.even (minute ts) then "passed" else "failed" in
  let message := if Z.even (minute ts)
                 then "Validation passed" else "Validation failed" in
  In (Print ("validation_passed = " +:+ py_bool_str (Z.even (minute ts))))
     (log (handler w event context))
  /\ notifications (log (handler w event context))
     = [Invoke_notify_result request_body status message]
  /\ outcome (handler w event context)
     = Ok match notified w request_body status message with
          | Ok _ =>
              Response 200
                (json_dumps
                   (PDict [("data",
                      PDict [("type", PStr "task-results");
                             ("attributes",
                              PDict [("status", PStr status);
                                     ("message", PStr message)])])]))
          | Raise e => internal_error_response e
          end.
Proof.
  intros Hsecret Hbody Hparsed Hsig Hverify Hlevel Htest Hplan Hts
    status message.
  assert (Hverdict : verdict (minute ts) = (status, message))
    by (unfold verdict, status, message; destruct (Z.even (minute ts));
        reflexivity).
  apply dict_getitem_some in Hbody.
  split; [|split].
  - rewrite secret_of_unfold in Hsecret.
    destruct (environ_getitem w "HMAC_SECRET_KEY_PARAM") as [name|]
      eqn:Hname; [|discriminate].
    unfold plan_timestamp_of in Hts.
    destruct (py_getitem plan_json "timestamp") as [timestamp|]
      eqn:Htimestamp; [|discriminate].
    cbn [mbind result_bind] in Hts.
    unfold parsed_body, signature_of, fetched_plan in *.
    unfold handler. repeat step.
    rewrite even_mod2.
    destruct (Z.even (minute ts)); repeat fork; settle;
      rewrite !in_app_iff; cbn [In py_bool_str]; auto 10.
  - rewrite handler_notifications.
    rewrite Hsecret, Hparsed, Hsig, Hbody, Hverify, Hlevel, Htest,
      Hplan, Hts, Hverdict.
    reflexivity.
  - rewrite handler_outcome.
    rewrite Hsecret, Hparsed, Hsig, Hbody, Hverify, Hlevel, Htest,
      Hplan, Hts, Hverdict.
    reflexivity.
Qed.

(** Claim C5, as amended.  The signature given to [verify_hmac] is the
    value stored in the headers under the exact key
    [x-tfc-task-signature]; headers under another capitalization of the
    name are not consulted.  When that key is absent the signature is
    the empty string, and the empty string fails verification for every
    body and every secret. *)
Theorem signature_header_exact_key w event context payload sig key :
  In (Invoke_verify_hmac payload sig key) (log (handler w event context)) ->
  (exists headers,
      default (PDict []) (dict_get event "headers") = PDict headers
      /\ sig = default (PStr "")
                       (dict_get headers "x-tfc-task-signature"))
  /\ (forall raw secret,
        verify_hmac (PStr raw) (PStr "") (PStr secret) = Ok false).
Proof.
  intros Hin. split; [|intros; apply verify_hmac_empty_signature].
  assert (Hv : In (Invoke_verify_hmac payload sig key)
                 (verifications (log (handler w event context))))
    by (apply List.filter_In; split; [exact Hin | reflexivity]).
  rewrite handler_verifications in Hv.
  destruct (secret_of w); [|destruct Hv].
  destruct (parsed_body event); [|destruct Hv].
  destruct (signature_of event) as [s|] eqn:Hsig; [|destruct Hv].
  destruct (dict_getitem event "body"); [|destruct Hv].
  destruct Hv as [E|[]]. inversion E; subst.
  unfold signature_of, py_get in Hsig.
  destruct (default (PDict []) (dict_get event "headers")) as
    [ | | | | | |headers]; try discriminate Hsig.
  exists headers. split; [reflexivity|]. congruence.
Qed.


(** Claim C7.  On a signature-verified request that is not a handshake,
    when the plan fetch raises, the handler answers 500 with a message
    that starts with "Internal error", and [notify_result] is not
    invoked. *)
Theorem plan_fetch_failure_500
    w event context key raw sig request_body level e :
  secret_of w = Ok key ->
  dict_get event "body" = Some raw ->
  parsed_body event = Ok request_body ->
  signature_of event = Ok sig ->
  verify_hmac raw sig key = Ok true ->
  py_get request_body "task_result_enforcement_level" PNone = Ok level ->
  py_eq_str level "test" = false ->
  fetched_plan w request_body = Raise e ->
  outcome (handler w event context)
  = Ok (Response 500
          (json_dumps
             (PDict [("message",
                      PStr ("Internal error: " +:+ exn_str e))])))
  /\ notifications (log (handler w event context)) = [].
Proof.
  intros Hsecret Hbody Hparsed Hsig Hverify Hlevel Htest Hplan.
  apply dict_getitem_some in Hbody.
  rewrite handler_outcome, handler_notifications.
  rewrite Hsecret, Hparsed, Hsig, Hbody, Hverify, Hlevel, Htest, Hplan.
  auto.
Qed.

(** Claim C8.  On a signature-verified request that is not a handshake,
    when the plan is fetched and its timestamp parses but the callback
    raises, the handler answers 500 with the body
    [{"message": "Internal error: <description>"}] and not the 200
    validation response. *)
Theorem notification_failure_500
    w event context key raw sig request_body level plan_json ts e :
  secret_of w = Ok key ->
  dict_get event "body" = Some raw ->
  parsed_body event = Ok request_body ->
  signature_of event = Ok sig ->
  verify_hmac raw sig key = Ok true ->
  py_get request_body "task_result_enforcement_level" PNone = Ok level ->
  py_eq_str level "test" = false ->
  fetched_plan w request_body = Ok plan_json ->
  plan_timestamp_of plan_json = Ok ts ->
  notified w request_body (verdict (minute ts)).1 (verdict (minute ts)).2
  = Raise e ->
  outcome (handler w event context)
  = Ok (Response 500
          (json_dumps
             (PDict [("message",
                      PStr ("Internal error: " +:+ exn_str e))]))).
Proof.
  intros Hsecret Hbody Hparsed Hsig Hverify Hlevel Htest Hplan Hts Hnotify.
  apply dict_getitem_some in Hbody.
  rewrite handler_outcome.
  rewrite Hsecret, Hparsed, Hsig, Hbody, Hverify, Hlevel, Htest, Hplan,
    Hts.
  cbv zeta. rewrite Hnotify. reflexivity.
Qed.

(** Claim C9.  The classification is deterministic: two runs on the same
    event that resolve the same secret and fetch the same plan document
    call [notify_result] with the same status and message, whatever else
    differs between the two runs. *)
Theorem classification_deterministic w1 w2 event context1 context2 :
  secret_of w1 = secret_of w2 ->
  (forall request_body,
      parsed_body event = Ok request_body ->
      fetched_plan w1 request_body = fetched_plan w2 request_body) ->
  notifications (log (handler w1 event context1))
  = notifications (log (handler w2 event context2)).
Proof.
  intros Hsecret Hplan.
  rewrite !handler_notifications, Hsecret.
  destruct (secret_of w2); [|reflexivity].
  destruct (parsed_body event) as [request_body|] eqn:Hparsed;
    [|reflexivity].
  rewrite (Hplan request_body eq_refl). reflexivity.
Qed.

(** Claim C10.  An event without a "body" key is always answered 500:
    never 401, never 200.  No verification, no plan fetch and no
    notification takes place for it. *)
Theorem missing_body_500 w event context :
  dict_get event "body" = None ->
  (exists e,
      outcome (handler w event context)
      = Ok (Response 500
              (json_dumps
                 (PDict [("message",
                          PStr ("Internal error: " +:+ exn_str e))]))))
  /\ verifications (log (handler w event context)) = []
  /\ plan_fetches (log (handler w event context)) = []
  /\ notifications (log (handler w event context)) = [].
Proof.
  intros Hbody. apply dict_getitem_none in Hbody.
  rewrite handler_outcome, handler_verifications, handler_plan_fetches,
    handler_notifications, Hbody.
  unfold key_error.
  destruct (secret_of w) as [?|e1]; [|repeat split; eauto].
  destruct (parsed_body event) as [?|e2]; [|repeat split; eauto].
  destruct (signature_of event) as [?|e3]; repeat split; eauto.
Qed.

(** The signature check is the only gate: the plan is fetched, or the
    callback notified, only for a request whose signature verified. *)
Lemma authentication_gate w event context :
  plan_fetches (log (handler w event context))
    ++ notifications (log (handler w event context)) <> [] ->
  exists key raw sig,
    secret_of w = Ok key
    /\ dict_get event "body" = Some raw
    /\ signature_of event = Ok sig
    /\ verify_hmac raw sig key = Ok true.
Proof.
  rewrite handler_plan_fetches, handler_notifications.
  destruct (secret_of w) as [key|]; [|intros []; reflexivity].
  destruct (parsed_body event); [|intros []; reflexivity].
  destruct (signature_of event) as [sig|]; [|intros []; reflexivity].
  destruct (dict_getitem event "body") as [raw|] eqn:Hbody;
    [|intros []; reflexivity].
  destruct (verify_hmac raw sig key) as [[|]|] eqn:Hverify;
    try (intros []; reflexivity).
  intros _. exists key, raw, sig.
  auto using dict_getitem_inv.
Qed.

End Claims.

(* ===================================================================== *)
(** ** Further properties of the code *)
(* ===================================================================== *)

Ltac reduce_result :=
  repeat (progress (cbn [mbind result_bind outcome lift snd];
                    use_equations)).

Section HelperFacts.

Context `{PyLib}.

Lemma requests_app l1 l2 : requests (l1 ++ l2) = requests l1 ++ requests l2.
Proof.
  induction l1 as [|a l1 IH]; [reflexivity|].
  destruct a; cbn [requests app]; rewrite IH; reflexivity.
Qed.

Lemma get_parameter_log w name :
  log (get_parameter w name)
  = [Invoke_get_parameter name; Urlopen (parameter_request w name)].
Proof.
  unfold get_parameter, send, parameter_request.
  repeat fork; settle; reflexivity.
Qed.

Lemma get_parameter_outcome w name :
  outcome (get_parameter w name)
  = (res ← urlopen w (parameter_request w name);
     response ← json_loads_bytes res;
     parameter ← py_getitem response "Parameter";
     py_getitem parameter "Value").
Proof.
  unfold get_parameter, send, parameter_request.
  repeat fork; settle; reduce_result; reflexivity.
Qed.

Lemma get_plan_json_log w request_body :
  log (get_plan_json w request_body)
  = Invoke_get_plan_json request_body
      :: match request_body with
         | PDict d => [Urlopen (plan_request d)]
         | _ => []
         end.
Proof.
  unfold get_plan_json, send, plan_request.
  destruct request_body; cbn [py_get]; unfold no_attribute;
    repeat fork; settle; reflexivity.
Qed.

Lemma get_plan_json_outcome w d :
  outcome (get_plan_json w (PDict d))
  = (res ← urlopen w (plan_request d); json_loads_bytes res).
Proof.
  unfold get_plan_json, send, plan_request. cbn [py_get].
  repeat fork; settle; reduce_result; reflexivity.
Qed.

Lemma notify_result_log w request_body status message :
  log (notify_result w request_body status message)
  = Invoke_notify_result request_body status message
      :: match request_body with
         | PDict d => [Urlopen (callback_request d status message)]
         | _ => []
         end.
Proof.
  unfold notify_result, send, callback_request.
  destruct request_body; cbn [py_get]; unfold no_attribute;
    repeat fork; settle; reflexivity.
Qed.

Lemma notify_result_outcome w d status message :
  outcome (notify_result w (PDict d) status message)
  = (urlopen w (callback_request d status message);; Ok tt).
Proof.
  unfold notify_result, send, callback_request. cbn [py_get].
  repeat fork; settle; reduce_result; reflexivity.
Qed.

End HelperFacts.

Section HelperProperties.

Context `{PyLib}.

(** get_parameter: when [AWS_SESSION_TOKEN] is not set the request is
    still sent, with an empty token header; the missing variable raises
    nothing. *)
Theorem get_parameter_without_session_token w name :
  environ w !! "AWS_SESSION_TOKEN" = None ->
  requests (log (get_parameter w name))
  = [Request "GET"
       (PStr ("http://localhost:2773/systemsmanager/parameters/get?name="
                +:+ name +:+ "&withDecryption=true"))
       [("X-Aws-Parameters-Secrets-Token", "")]
       None].
Proof.
  intros Htoken. rewrite get_parameter_log. unfold parameter_request.
  rewrite Htoken. reflexivity.
Qed.

(** get_parameter: a response document without the key "Parameter" makes
    it raise [KeyError: 'Parameter']. *)
Theorem get_parameter_missing_parameter_key w name res d :
  urlopen w (parameter_request w name) = Ok res ->
  json_loads_bytes res = Ok (PDict d) ->
  dict_get d "Parameter" = None ->
  outcome (get_parameter w name) = Raise (Exn "KeyError" "'Parameter'").
Proof.
  intros Hopen Hjson Hkey. rewrite get_parameter_outcome, Hopen.
  cbn [mbind result_bind]. rewrite Hjson. cbn [mbind result_bind].
  unfold py_getitem, dict_getitem. rewrite Hkey. reflexivity.
Qed.

(** get_parameter: what the secret store raises is raised as it is,
    after one request and no retry. *)
Theorem get_parameter_upstream_failure w name e :
  urlopen w (parameter_request w name) = Raise e ->
  outcome (get_parameter w name) = Raise e
  /\ requests (log (get_parameter w name)) = [parameter_request w name].
Proof.
  intros Hopen. rewrite get_parameter_outcome, get_parameter_log, Hopen.
  split; reflexivity.
Qed.

(** get_plan_json: a request body that is not a [dict] raises
    [AttributeError] on the first [.get], before any request is sent. *)
Theorem get_plan_json_not_a_dict w request_body :
  is_dict request_body = false ->
  outcome (get_plan_json w request_body)
  = Raise (Exn "AttributeError"
             ("'" +:+ type_name request_body
                  +:+ "' object has no attribute 'get'"))
  /\ requests (log (get_plan_json w request_body)) = [].
Proof.
  intros Hdict. rewrite get_plan_json_log.
  destruct request_body; try discriminate Hdict; split; reflexivity.
Qed.


(** notify_result: once the callback answers, the function returns
    whatever the answer holds (it is not read), having sent the one PATCH
    request that carries the task-results document. *)
Theorem notify_result_ignores_response w d status message res :
  urlopen w (callback_request d status message) = Ok res ->
  outcome (notify_result w (PDict d) status message) = Ok tt
  /\ requests (log (notify_result w (PDict d) status message))
     = [callback_request d status message].
Proof.
  intros Hopen. rewrite notify_result_outcome, notify_result_log, Hopen.
  split; reflexivity.
Qed.

(** notify_result: a request body that is not a [dict] raises
    [AttributeError] before any request is sent. *)
Theorem notify_result_not_a_dict w request_body status message :
  is_dict request_body = false ->
  outcome (notify_result w request_body status message)
  = Raise (Exn "AttributeError"
             ("'" +:+ type_name request_body
                  +:+ "' object has no attribute 'get'"))
  /\ requests (log (notify_result w request_body status message)) = [].
Proof.
  intros Hdict. rewrite notify_result_log.
  destruct request_body; try discriminate Hdict; split; reflexivity.
Qed.

End HelperProperties.

(** verify_hmac returns [True] only for three strings of which the
    signature is the hexadecimal HMAC-SHA512 of the payload under the
    secret. *)
Theorem verify_hmac_true_only_for_digest payload signature secret :
  verify_hmac payload signature secret = Ok true ->
  exists p k,
    payload = PStr p /\ secret = PStr k
    /\ signature = PStr (HMAC.hexdigest (encode k) (encode p)).
Proof.
  intros Hv.
  destruct secret as [ | | | |k| | ]; try discriminate Hv.
  destruct payload as [ | | | |p| | ]; try discriminate Hv.
  destruct signature as [ | | | |s| | ]; try discriminate Hv.
  exists p, k. rewrite verify_hmac_str in Hv.
  destruct (is_ascii s); [|discriminate Hv].
  assert (E : String.eqb (HMAC.hexdigest (encode k) (encode p)) s = true)
    by congruence.
  apply String.eqb_eq in E. subst s. auto.
Qed.

(** verify_hmac rejects every ASCII signature that is not 128
    characters long: a truncated or extended digest never verifies. *)
Theorem verify_hmac_wrong_length payload signature secret :
  is_ascii signature = true ->
  String.length signature <> 128%nat ->
  verify_hmac (PStr payload) (PStr signature) (PStr secret) = Ok false.
Proof.
  intros Hascii Hlen. apply verify_hmac_rejects; [exact Hascii|].
  intros ->. apply Hlen. apply hexdigest_length.
Qed.

(** verify_hmac: a secret that is not a [str] raises [AttributeError],
    whatever the payload and the signature are. *)
Theorem verify_hmac_secret_not_str payload signature secret :
  is_str secret = false ->
  verify_hmac payload signature secret
  = Raise (Exn "AttributeError"
             ("'" +:+ type_name secret
                  +:+ "' object has no attribute 'encode'")).
Proof. destruct secret; intros Hs; try discriminate Hs; reflexivity. Qed.

(** verify_hmac: a signature that is not a [str] raises the [TypeError]
    of [hmac.compare_digest]. *)
Theorem verify_hmac_signature_not_str payload signature secret :
  is_str signature = false ->
  verify_hmac (PStr payload) signature (PStr secret)
  = Raise (Exn "TypeError"
             ("unsupported operand types(s) or combination of types: "
                +:+ "'str' and '" +:+ type_name signature +:+ "'")).
Proof. destruct signature; intros Hs; try discriminate Hs; reflexivity. Qed.

Section HandlerRequests.

Context `{PyLib}.

Lemma level_of_dict d :
  py_get (PDict d) "task_result_enforcement_level" PNone
  = Ok (default PNone (dict_get d "task_result_enforcement_level")).
Proof. reflexivity. Qed.

(** The requests the handler sends, on every path. *)
Lemma handler_requests w event context :
  requests (log (handler w event context)) =
  match environ_getitem w "HMAC_SECRET_KEY_PARAM" with
  | Raise _ => []
  | Ok name =>
      parameter_request w name
        :: match secret_of w, parsed_body event, signature_of event,
                 dict_getitem event "body" with
           | Ok key, Ok (PDict d), Ok sig, Ok raw =>
               match verify_hmac raw sig key with
               | Ok true =>
                   if py_eq_str
                        (default PNone
                           (dict_get d "task_result_enforcement_level"))
                        "test"
                   then []
                   else
                     plan_request d
                       :: match fetched_plan w (PDict d) with
                          | Ok plan_json =>
                              match plan_timestamp_of plan_json with
                              | Ok ts =>
                                  [callback_request d
                                     (verdict (minute ts)).1
                                     (verdict (minute ts)).2]
                              | Raise _ => []
                              end
                          | Raise _ => []
                          end
               | _ => []
               end
           | _, _, _, _ => []
           end
  end.
Proof.
  rewrite secret_of_unfold.
  unfold handler, parsed_body, signature_of, fetched_plan,
    plan_timestamp_of, verdict.
  repeat fork; settle; rewrite ?internal_error_log, ?requests_app,
    ?get_parameter_log, ?get_plan_json_log, ?notify_result_log;
    cbn [requests app];
    repeat match goal with
    | Hx : py_get ?b _ _ = Ok _ |- _ =>
        is_var b; destruct b; try discriminate Hx;
        rewrite level_of_dict in Hx; injection Hx as Hx; subst
    | Hx : py_get ?b _ _ = Raise _ |- _ =>
        is_var b; destruct b; try discriminate Hx
    end;
    reduce_result; rewrite <- ?even_mod2; reduce_result;
    cbn [requests app fst snd]; try reflexivity.
  all: try (destruct (verify_hmac _ _ _) as [[|]|]; reflexivity).
  all: match goal with |- context [match ?b with PNone => _ | _ => _ end] =>
         destruct b; reflexivity end.
Qed.

End HandlerRequests.

(** Case analysis on whatever a [match] in the goal or in [Hx] waits for. *)
Ltac split_goal :=
  repeat first
    [ progress cbv zeta
    | match goal with
      | |- context [match ?x with _ => _ end] => destruct x eqn:?
      end ].

Ltac split_in Hx :=
  repeat first
    [ progress cbv zeta in Hx
    | match type of Hx with
      | context [match ?x with _ => _ end] => destruct x eqn:?
      end ].

Section HandlerProperties.

Context `{PyLib}.

Implicit Types (w : world) (event : dict) (context : pyval).

(** handler lets no exception that derives from [Exception] escape: it
    always returns a response, and its status code is 200, 401 or 500. *)
Theorem handler_never_raises w event context :
  exists r,
    outcome (handler w event context) = Ok r
    /\ (statusCode r = 200 \/ statusCode r = 401 \/ statusCode r = 500).
Proof.
  rewrite handler_outcome. eexists. split; [reflexivity|].
  split_goal; cbn [statusCode internal_error_response]; auto.
Qed.

(** handler: without [HMAC_SECRET_KEY_PARAM] in the environment the
    answer is 500 with the [KeyError], and nothing is done but the two
    prints of the [except] clause: no helper is called, no request is
    sent. *)
Theorem missing_secret_name_500 w event context :
  environ w !! "HMAC_SECRET_KEY_PARAM" = None ->
  handler w event context
  = ([Print "Error: 'HMAC_SECRET_KEY_PARAM'";
      Print ("Traceback: "
               +:+ format_exc (Exn "KeyError" "'HMAC_SECRET_KEY_PARAM'"))],
     Ok (Response 500
           (json_dumps
              (PDict [("message",
                       PStr "Internal error: 'HMAC_SECRET_KEY_PARAM'")])))).
Proof.
  intros Hname. unfold handler, environ_getitem. rewrite Hname.
  rewrite (bind_lift_raise (key_error _) _ _ eq_refl), try_raise.
  reflexivity.
Qed.

(** handler: when the secret cannot be resolved the answer is 500 with
    the description of the exception, and nothing is verified, fetched or
    notified. *)
Theorem secret_resolution_failure_500 w event context e :
  secret_of w = Raise e ->
  outcome (handler w event context)
  = Ok (Response 500
          (json_dumps
             (PDict [("message",
                      PStr ("Internal error: " +:+ exn_str e))])))
  /\ verifications (log (handler w event context)) = []
  /\ plan_fetches (log (handler w event context)) = []
  /\ notifications (log (handler w event context)) = [].
Proof.
  intros Hsecret.
  rewrite handler_outcome, handler_verifications, handler_plan_fetches,
    handler_notifications, Hsecret.
  auto.
Qed.

(** handler: a body that [json.loads] rejects is answered 500 with the
    decoder's message whatever the signature is; the signature is not
    even examined. *)
Theorem malformed_body_500 w event context key e :
  secret_of w = Ok key ->
  parsed_body event = Raise e ->
  outcome (handler w event context)
  = Ok (Response 500
          (json_dumps
             (PDict [("message",
                      PStr ("Internal error: " +:+ exn_str e))])))
  /\ verifications (log (handler w event context)) = []
  /\ plan_fetches (log (handler w event context)) = []
  /\ notifications (log (handler w event context)) = [].
Proof.
  intros Hsecret Hparsed.
  rewrite handler_outcome, handler_verifications, handler_plan_fetches,
    handler_notifications, Hsecret, Hparsed.
  auto.
Qed.

(** handler: a 401 is given only when [verify_hmac] returned [False]. *)
Theorem unauthorized_only_on_failed_verification w event context r :
  outcome (handler w event context) = Ok r ->
  statusCode r = 401 ->
  exists key raw sig,
    secret_of w = Ok key
    /\ dict_get event "body" = Some raw
    /\ signature_of event = Ok sig
    /\ verify_hmac raw sig key = Ok false.
Proof.
  rewrite handler_outcome. intros Hr Hstatus.
  assert (E : statusCode r = 401) by exact Hstatus. clear Hstatus.
  split_in Hr; injection Hr as <-;
    cbn [statusCode internal_error_response] in E; try discriminate E.
  eauto 10 using dict_getitem_inv.
Qed.

(** handler: a 200 is given only to a request whose signature
    verified. *)
Theorem success_only_after_verification w event context r :
  outcome (handler w event context) = Ok r ->
  statusCode r = 200 ->
  exists key raw sig,
    secret_of w = Ok key
    /\ dict_get event "body" = Some raw
    /\ signature_of event = Ok sig
    /\ verify_hmac raw sig key = Ok true.
Proof.
  rewrite handler_outcome. intros Hr Hstatus.
  assert (E : statusCode r = 200) by exact Hstatus. clear Hstatus.
  split_in Hr; injection Hr as <-;
    cbn [statusCode internal_error_response] in E; try discriminate E;
    eauto 10 using dict_getitem_inv.
Qed.

End HandlerProperties.

Section HandlerProperties2.

Context `{PyLib}.

Implicit Types (w : world) (event : dict) (context : pyval).

(** handler: every call of [notify_result] is for the parsed body of the
    event, after the plan was fetched and its timestamp parsed, and
    carries one of the two pairs of status and message, by the parity of
    the minute. *)
Theorem notification_invariant w event context request_body status message :
  In (Invoke_notify_result request_body status message)
     (log (handler w event context)) ->
  exists plan_json ts,
    parsed_body event = Ok request_body
    /\ fetched_plan w request_body = Ok plan_json
    /\ plan_timestamp_of plan_json = Ok ts
    /\ (status, message)
       = (if Z.even (minute ts)
          then ("passed", "Validation passed")
          else ("failed", "Validation failed")).
Proof.
  intros Hin.
  assert (Hn : In (Invoke_notify_result request_body status message)
                  (notifications (log (handler w event context))))
    by (apply List.filter_In; split; [exact Hin | reflexivity]).
  rewrite handler_notifications in Hn.
  split_in Hn; cbn [In] in Hn; try contradiction.
  destruct Hn as [Hn|[]]. injection Hn as <- <- <-.
  eexists _, _. repeat split; try eassumption.
  unfold verdict. destruct (Z.even (minute _)); reflexivity.
Qed.

(** handler: the plan is fetched at most once, and the callback is
    notified at most once and only after a plan fetch. *)
Theorem at_most_one_fetch_and_notification w event context :
  (length (plan_fetches (log (handler w event context))) <= 1)%nat
  /\ (length (notifications (log (handler w event context)))
      <= length (plan_fetches (log (handler w event context))))%nat.
Proof.
  rewrite handler_plan_fetches, handler_notifications.
  split_goal; cbn [length]; lia.
Qed.

(** handler: when the plan document has no timestamp, or one that does
    not parse, the answer is 500 with the description of the exception;
    the plan was fetched, the callback is not notified. *)
Theorem timestamp_failure_500
    w event context key raw sig request_body level plan_json e :
  secret_of w = Ok key ->
  dict_get event "body" = Some raw ->
  parsed_body event = Ok request_body ->
  signature_of event = Ok sig ->
  verify_hmac raw sig key = Ok true ->
  py_get request_body "task_result_enforcement_level" PNone = Ok level ->
  py_eq_str level "test" = false ->
  fetched_plan w request_body = Ok plan_json ->
  plan_timestamp_of plan_json = Raise e ->
  outcome (handler w event context)
  = Ok (Response 500
          (json_dumps
             (PDict [("message",
                      PStr ("Internal error: " +:+ exn_str e))])))
  /\ plan_fetches (log (handler w event context))
     = [Invoke_get_plan_json request_body]
  /\ notifications (log (handler w event context)) = [].
Proof.
  intros Hsecret Hbody Hparsed Hsig Hverify Hlevel Htest Hplan Hts.
  apply dict_getitem_some in Hbody.
  rewrite handler_outcome, handler_plan_fetches, handler_notifications.
  rewrite Hsecret, Hparsed, Hsig, Hbody, Hverify, Hlevel, Htest, Hplan, Hts.
  auto.
Qed.

(** handler: a signature-verified body that parses to something else
    than a [dict] is answered 500 with the [AttributeError] of [.get];
    nothing is fetched or notified. *)
Theorem non_dict_body_500 w event context key raw sig request_body :
  secret_of w = Ok key ->
  dict_get event "body" = Some raw ->
  parsed_body event = Ok request_body ->
  signature_of event = Ok sig ->
  verify_hmac raw sig key = Ok true ->
  is_dict request_body = false ->
  outcome (handler w event context)
  = Ok (Response 500
          (json_dumps
             (PDict [("message",
                      PStr ("Internal error: '" +:+ type_name request_body
                              +:+ "' object has no attribute 'get'"))])))
  /\ plan_fetches (log (handler w event context)) = []
  /\ notifications (log (handler w event context)) = [].
Proof.
  intros Hsecret Hbody Hparsed Hsig Hverify Hdict.
  apply dict_getitem_some in Hbody.
  rewrite handler_outcome, handler_plan_fetches, handler_notifications.
  rewrite Hsecret, Hparsed, Hsig, Hbody, Hverify.
  destruct request_body; try discriminate Hdict; auto.
Qed.

(** handler: when the secret store gives a value that is not a string,
    every request that reaches the signature check is answered 500 with
    the [AttributeError] of [.encode]. *)
Theorem secret_not_a_string_500 w event context key raw sig request_body :
  secret_of w = Ok key ->
  is_str key = false ->
  dict_get event "body" = Some raw ->
  parsed_body event = Ok request_body ->
  signature_of event = Ok sig ->
  outcome (handler w event context)
  = Ok (Response 500
          (json_dumps
             (PDict [("message",
                      PStr ("Internal error: '" +:+ type_name key
                              +:+ "' object has no attribute 'encode'"))])))
  /\ plan_fetches (log (handler w event context)) = []
  /\ notifications (log (handler w event context)) = [].
Proof.
  intros Hsecret Hstr Hbody Hparsed Hsig.
  apply dict_getitem_some in Hbody.
  rewrite handler_outcome, handler_plan_fetches, handler_notifications.
  rewrite Hsecret, Hparsed, Hsig, Hbody.
  assert (Hverify :
            verify_hmac raw sig key
            = Raise (Exn "AttributeError"
                       ("'" +:+ type_name key
                            +:+ "' object has no attribute 'encode'")))
    by (destruct key; try discriminate Hstr; reflexivity).
  rewrite Hverify. auto.
Qed.


(** handler: a request answered 401 caused exactly one outbound request,
    the secret retrieval. *)
Theorem unauthorized_single_request w event context r :
  outcome (handler w event context) = Ok r ->
  statusCode r = 401 ->
  exists name,
    environ w !! "HMAC_SECRET_KEY_PARAM" = Some name
    /\ requests (log (handler w event context)) = [parameter_request w name].
Proof.
  rewrite handler_outcome, handler_requests. intros Hr Hstatus.
  assert (E : statusCode r = 401) by exact Hstatus. clear Hstatus.
  unfold environ_getitem.
  split_in Hr; injection Hr as <-;
    cbn [statusCode internal_error_response] in E; try discriminate E.
  match goal with Hs : secret_of w = Ok _ |- _ =>
    rewrite secret_of_unfold in Hs; unfold environ_getitem in Hs end.
  destruct (environ w !! "HMAC_SECRET_KEY_PARAM") as [name|];
    [|discriminate].
  exists name. split; [reflexivity|].
  match goal with |- context [match ?b with PNone => _ | _ => _ end] =>
    destruct b; reflexivity end.
Qed.

(** handler: in a run answered 200, the payload of any PATCH request
    sent is the body of the response. *)
Theorem response_echoes_callback w event context r req :
  outcome (handler w event context) = Ok r ->
  statusCode r = 200 ->
  In req (requests (log (handler w event context))) ->
  req_method req = "PATCH" ->
  req_data req = Some (encode (body r)).
Proof.
  rewrite handler_outcome, handler_requests. intros Hr Hstatus Hin Hmethod.
  assert (E : statusCode r = 200) by exact Hstatus. clear Hstatus.
  split_in Hr; injection Hr as <-;
    cbn [statusCode internal_error_response] in E; try discriminate E;
    split_in Hin; cbn [In] in Hin; try contradiction;
    repeat match goal with
    | Hx : py_get ?b _ _ = Ok _ |- _ =>
        rewrite level_of_dict in Hx; injection Hx as Hx; subst
    end;
    repeat (destruct Hin as [<-|Hin]); try destruct Hin;
    try discriminate Hmethod.
  all: try congruence.
  all: match goal with
       | |- context [callback_request _ (verdict (minute ?u)).1] =>
           match goal with
           | |- context [task_results (verdict (minute ?v)).1] =>
               assert (Ets : u = v) by congruence; rewrite Ets; reflexivity
           end
       end.
Qed.


End HandlerProperties2.

(* ===================================================================== *)
(** ** The claims on concrete requests *)
(* ===================================================================== *)

Import Doubles.
#[local] Existing Instance library.



(** Claim C2 fails on the code: on a signature that is not ASCII
    [verify_hmac] raises a [TypeError] instead of returning [False], and
    the handler then answers 500 instead of 401. *)
Theorem verify_hmac_non_ascii_signature_raises :
  verify_hmac (PStr (dumps handshake_payload)) (PStr e_acute)
              (PStr secret_value)
  = Raise (Exn "TypeError"
             "comparing strings with non-ASCII characters is not supported")
  /\ outcome (handler world_even non_ascii_event PNone)
     = Ok (Response 500
             (json_dumps
                (PDict [("message",
                         PStr ("Internal error: "
                                 +:+ "comparing strings with non-ASCII characters is not supported"))]))).
Proof. split; vm_compute; reflexivity. Qed.

Lemma handshake_accepted_witness :
  outcome (handler world_even handshake_event PNone)
  = Ok (Response 200
          (json_dumps
             (PDict [("data",
                PDict [("type", PStr "task-results");
                       ("attributes",
                        PDict [("status", PStr "passed");
                               ("message",
                                PStr "Configuration successful")])])])))
  /\ plan_fetches (log (handler world_even handshake_event PNone)) = []
  /\ notifications (log (handler world_even handshake_event PNone)) = [].
Proof.
  apply (handshake_accepted world_even handshake_event PNone
           (PStr secret_value) (PStr (dumps handshake_payload))
           (PStr (sign (dumps handshake_payload))) handshake_payload);
    vm_compute; reflexivity.
Defined.

Lemma validation_by_minute_parity_witness :
  In (Print "validation_passed = False")
     (log (handler world_odd run_event PNone))
  /\ notifications (log (handler world_odd run_event PNone))
     = [Invoke_notify_result run_payload "failed" "Validation failed"]
  /\ outcome (handler world_odd run_event PNone)
     = Ok (Response 200
             (json_dumps
                (PDict [("data",
                   PDict [("type", PStr "task-results");
                          ("attributes",
                           PDict [("status", PStr "failed");
                                  ("message",
                                   PStr "Validation failed")])])]))).
Proof.
  apply (validation_by_minute_parity world_odd run_event PNone
           (PStr secret_value) (PStr (dumps run_payload))
           (PStr (sign (dumps run_payload))) run_payload (PStr "mandatory")
           (plan_at odd_minute) (Datetime 2024 1 1 10 15 0 0 (Some 0)));
    vm_compute; reflexivity.
Defined.

(** Claim C5 fails as stated: a valid signature sent under the header
    name [X-Tfc-Task-Signature] is not found; the handler verifies the
    empty string instead and answers 401. *)
Lemma capitalized_signature_header_ignored :
  lower "X-Tfc-Task-Signature" = "x-tfc-task-signature"
  /\ dict_get capitalized_event "headers"
     = Some (PDict [("X-Tfc-Task-Signature",
                     PStr (sign (dumps handshake_payload)))])
  /\ verify_hmac (PStr (dumps handshake_payload))
                 (PStr (sign (dumps handshake_payload))) (PStr secret_value)
     = Ok true
  /\ verifications (log (handler world_even capitalized_event PNone))
     = [Invoke_verify_hmac (PStr (dumps handshake_payload)) (PStr "")
                           (PStr secret_value)]
  /\ outcome (handler world_even capitalized_event PNone)
     = Ok (Response 401
             (json_dumps (PDict [("message", PStr "Invalid signature")]))).
Proof. repeat split; vm_compute; reflexivity. Qed.

Lemma signature_header_exact_key_witness :
  (exists headers,
      default (PDict []) (dict_get handshake_event "headers") = PDict headers
      /\ PStr (sign (dumps handshake_payload))
         = default (PStr "") (dict_get headers "x-tfc-task-signature"))
  /\ (forall raw secret,
        verify_hmac (PStr raw) (PStr "") (PStr secret) = Ok false).
Proof.
  apply (signature_header_exact_key world_even handshake_event PNone
           (PStr (dumps handshake_payload))
           (PStr (sign (dumps handshake_payload))) (PStr secret_value)).
  vm_compute. auto 6.
Defined.


Lemma plan_fetch_failure_500_witness :
  outcome (handler world_without_plan run_event PNone)
  = Ok (Response 500
          (json_dumps
             (PDict [("message",
                      PStr ("Internal error: "
                              +:+ "HTTP Error 503: Service Unavailable"))])))
  /\ notifications (log (handler world_without_plan run_event PNone)) = [].
Proof.
  apply (plan_fetch_failure_500 world_without_plan run_event PNone
           (PStr secret_value) (PStr (dumps run_payload))
           (PStr (sign (dumps run_payload))) run_payload (PStr "mandatory")
           (Exn "HTTPError" "HTTP Error 503: Service Unavailable"));
    vm_compute; reflexivity.
Defined.

Lemma notification_failure_500_witness :
  outcome (handler world_without_callback run_event PNone)
  = Ok (Response 500
          (json_dumps
             (PDict [("message",
                      PStr ("Internal error: "
                              +:+ "HTTP Error 503: Service Unavailable"))]))).
Proof.
  apply (notification_failure_500 world_without_callback run_event PNone
           (PStr secret_value) (PStr (dumps run_payload))
           (PStr (sign (dumps run_payload))) run_payload (PStr "mandatory")
           (plan_at even_minute) (Datetime 2024 1 1 10 14 0 0 (Some 0))
           (Exn "HTTPError" "HTTP Error 503: Service Unavailable"));
    vm_compute; reflexivity.
Defined.

Lemma classification_deterministic_witness :
  notifications (log (handler world_even run_event PNone))
  = notifications (log (handler world_without_callback run_event (PInt 7))).
Proof.
  apply (classification_deterministic world_even world_without_callback
           run_event PNone (PInt 7)).
  - vm_compute. reflexivity.
  - intros request_body Hparsed. vm_compute in Hparsed.
    injection Hparsed as <-. vm_compute. reflexivity.
Defined.

Lemma missing_body_500_witness :
  (exists e,
      outcome (handler world_even bodyless_event PNone)
      = Ok (Response 500
              (json_dumps
                 (PDict [("message",
                          PStr ("Internal error: " +:+ exn_str e))]))))
  /\ verifications (log (handler world_even bodyless_event PNone)) = []
  /\ plan_fetches (log (handler world_even bodyless_event PNone)) = []
  /\ notifications (log (handler world_even bodyless_event PNone)) = [].
Proof.
  apply (missing_body_500 world_even bodyless_event PNone).
  vm_compute. reflexivity.
Defined.

(** The two validation scenarios of the specification, and what the
    body-less event is answered, in full. *)
Example validation_passed_scenario :
  notifications (log (handler world_even run_event PNone))
  = [Invoke_notify_result run_payload "passed" "Validation passed"]
  /\ outcome (handler world_even run_event PNone)
     = Ok (Response 200
             (json_dumps (task_results "passed" "Validation passed"))).
Proof. split; vm_compute; reflexivity. Qed.

Example missing_body_key_error :
  outcome (handler world_even bodyless_event PNone)
  = Ok (Response 500
          (json_dumps
             (PDict [("message", PStr "Internal error: 'body'")]))).
Proof. vm_compute. reflexivity. Qed.

(* ===================================================================== *)
(** ** The further properties on concrete requests *)
(* ===================================================================== *)

Import MoreDoubles.

Lemma get_parameter_without_session_token_witness :
  requests (log (get_parameter world_without_token secret_name))
  = [Request "GET"
       (PStr ("http://localhost:2773/systemsmanager/parameters/get?name="
                +:+ secret_name +:+ "&withDecryption=true"))
       [("X-Aws-Parameters-Secrets-Token", "")]
       None].
Proof.
  apply (get_parameter_without_session_token world_without_token
           secret_name).
  vm_compute. reflexivity.
Defined.

Lemma get_parameter_missing_parameter_key_witness :
  outcome (get_parameter world_with_empty_secret_document secret_name)
  = Raise (Exn "KeyError" "'Parameter'").
Proof.
  apply (get_parameter_missing_parameter_key
           world_with_empty_secret_document secret_name
           (encode (dumps (PDict []))) []);
    vm_compute; reflexivity.
Defined.

Lemma get_parameter_upstream_failure_witness :
  outcome (get_parameter world_without_secret secret_name)
  = Raise (Exn "HTTPError" "HTTP Error 503: Service Unavailable")
  /\ requests (log (get_parameter world_without_secret secret_name))
     = [parameter_request world_without_secret secret_name].
Proof.
  apply (get_parameter_upstream_failure world_without_secret secret_name).
  vm_compute. reflexivity.
Defined.

Lemma get_plan_json_not_a_dict_witness :
  outcome (get_plan_json world_even (PList []))
  = Raise (Exn "AttributeError"
             ("'" +:+ type_name (PList [])
                  +:+ "' object has no attribute 'get'"))
  /\ requests (log (get_plan_json world_even (PList []))) = [].
Proof.
  apply (get_plan_json_not_a_dict world_even (PList [])). reflexivity.
Defined.


Lemma notify_result_ignores_response_witness :
  outcome (notify_result world_with_chatty_callback (PDict run_fields)
             "passed" "Validation passed")
  = Ok tt
  /\ requests (log (notify_result world_with_chatty_callback
                      (PDict run_fields) "passed" "Validation passed"))
     = [callback_request run_fields "passed" "Validation passed"].
Proof.
  apply (notify_result_ignores_response world_with_chatty_callback
           run_fields "passed" "Validation passed" (encode "accepted")).
  vm_compute. reflexivity.
Defined.

Lemma notify_result_not_a_dict_witness :
  outcome (notify_result world_even PNone "passed" "Validation passed")
  = Raise (Exn "AttributeError"
             ("'" +:+ type_name PNone
                  +:+ "' object has no attribute 'get'"))
  /\ requests (log (notify_result world_even PNone
                      "passed" "Validation passed")) = [].
Proof.
  apply (notify_result_not_a_dict world_even PNone). reflexivity.
Defined.

Lemma verify_hmac_true_only_for_digest_witness :
  exists p k,
    PStr (dumps handshake_payload) = PStr p
    /\ PStr secret_value = PStr k
    /\ PStr (sign (dumps handshake_payload))
       = PStr (HMAC.hexdigest (encode k) (encode p)).
Proof.
  apply (verify_hmac_true_only_for_digest
           (PStr (dumps handshake_payload))
           (PStr (sign (dumps handshake_payload))) (PStr secret_value)).
  vm_compute. reflexivity.
Defined.

Lemma verify_hmac_wrong_length_witness :
  verify_hmac (PStr (dumps handshake_payload)) (PStr "deadbeef")
              (PStr secret_value)
  = Ok false.
Proof.
  apply (verify_hmac_wrong_length (dumps handshake_payload) "deadbeef"
           secret_value).
  - reflexivity.
  - intros E. vm_compute in E. discriminate E.
Defined.

Lemma verify_hmac_secret_not_str_witness :
  verify_hmac (PStr (dumps handshake_payload)) (PStr "deadbeef") (PInt 7)
  = Raise (Exn "AttributeError"
             ("'" +:+ type_name (PInt 7)
                  +:+ "' object has no attribute 'encode'")).
Proof.
  apply (verify_hmac_secret_not_str (PStr (dumps handshake_payload))
           (PStr "deadbeef") (PInt 7)).
  reflexivity.
Defined.

Lemma verify_hmac_signature_not_str_witness :
  verify_hmac (PStr (dumps handshake_payload)) (PInt 42) (PStr secret_value)
  = Raise (Exn "TypeError"
             ("unsupported operand types(s) or combination of types: "
                +:+ "'str' and '" +:+ type_name (PInt 42) +:+ "'")).
Proof.
  apply (verify_hmac_signature_not_str (dumps handshake_payload) (PInt 42)
           secret_value).
  reflexivity.
Defined.

Lemma missing_secret_name_500_witness :
  handler world_without_name handshake_event PNone
  = ([Print "Error: 'HMAC_SECRET_KEY_PARAM'";
      Print ("Traceback: "
               +:+ format_exc (Exn "KeyError" "'HMAC_SECRET_KEY_PARAM'"))],
     Ok (Response 500
           (json_dumps
              (PDict [("message",
                       PStr "Internal error: 'HMAC_SECRET_KEY_PARAM'")])))).
Proof.
  apply (missing_secret_name_500 world_without_name handshake_event PNone).
  vm_compute. reflexivity.
Defined.

Lemma secret_resolution_failure_500_witness :
  outcome (handler world_without_secret handshake_event PNone)
  = Ok (Response 500
          (json_dumps
             (PDict [("message",
                      PStr ("Internal error: "
                              +:+ exn_str
                                    (Exn "HTTPError"
                                       "HTTP Error 503: Service Unavailable")))])))
  /\ verifications (log (handler world_without_secret handshake_event PNone))
     = []
  /\ plan_fetches (log (handler world_without_secret handshake_event PNone))
     = []
  /\ notifications (log (handler world_without_secret handshake_event PNone))
     = [].
Proof.
  apply (secret_resolution_failure_500 world_without_secret handshake_event
           PNone (Exn "HTTPError" "HTTP Error 503: Service Unavailable")).
  vm_compute. reflexivity.
Defined.

Lemma malformed_body_500_witness :
  outcome (handler world_even malformed_event PNone)
  = Ok (Response 500
          (json_dumps
             (PDict [("message",
                      PStr ("Internal error: "
                              +:+ exn_str
                                    (Exn "JSONDecodeError"
                                       "Expecting value: line 1 column 1 (char 0)")))])))
  /\ verifications (log (handler world_even malformed_event PNone)) = []
  /\ plan_fetches (log (handler world_even malformed_event PNone)) = []
  /\ notifications (log (handler world_even malformed_event PNone)) = [].
Proof.
  apply (malformed_body_500 world_even malformed_event PNone
           (PStr secret_value)
           (Exn "JSONDecodeError"
              "Expecting value: line 1 column 1 (char 0)"));
    vm_compute; reflexivity.
Defined.

Lemma unauthorized_only_on_failed_verification_witness :
  exists key raw sig,
    secret_of world_even = Ok key
    /\ dict_get forged_event "body" = Some raw
    /\ signature_of forged_event = Ok sig
    /\ verify_hmac raw sig key = Ok false.
Proof.
  apply (unauthorized_only_on_failed_verification world_even forged_event
           PNone
           (Response 401
              (json_dumps (PDict [("message", PStr "Invalid signature")]))));
    vm_compute; reflexivity.
Defined.

Lemma success_only_after_verification_witness :
  exists key raw sig,
    secret_of world_even = Ok key
    /\ dict_get handshake_event "body" = Some raw
    /\ signature_of handshake_event = Ok sig
    /\ verify_hmac raw sig key = Ok true.
Proof.
  apply (success_only_after_verification world_even handshake_event PNone
           (Response 200
              (json_dumps
                 (task_results "passed" "Configuration successful"))));
    vm_compute; reflexivity.
Defined.

Lemma notification_invariant_witness :
  exists plan_json ts,
    parsed_body run_event = Ok run_payload
    /\ fetched_plan world_even run_payload = Ok plan_json
    /\ plan_timestamp_of plan_json = Ok ts
    /\ ("passed", "Validation passed")
       = (if Z.even (minute ts)
          then ("passed", "Validation passed")
          else ("failed", "Validation failed")).
Proof.
  apply (notification_invariant world_even run_event PNone run_payload
           "passed" "Validation passed").
  vm_compute. do 7 right. left. reflexivity.
Defined.

Lemma timestamp_failure_500_witness :
  outcome (handler world_with_empty_plan run_event PNone)
  = Ok (Response 500
          (json_dumps
             (PDict [("message",
                      PStr ("Internal error: "
                              +:+ exn_str (Exn "KeyError" "'timestamp'")))])))
  /\ plan_fetches (log (handler world_with_empty_plan run_event PNone))
     = [Invoke_get_plan_json run_payload]
  /\ notifications (log (handler world_with_empty_plan run_event PNone))
     = [].
Proof.
  apply (timestamp_failure_500 world_with_empty_plan run_event PNone
           (PStr secret_value) (PStr (dumps run_payload))
           (PStr (sign (dumps run_payload))) run_payload (PStr "mandatory")
           (PDict []) (Exn "KeyError" "'timestamp'"));
    vm_compute; reflexivity.
Defined.

Lemma non_dict_body_500_witness :
  outcome (handler (H := library_more) world_even list_event PNone)
  = Ok (Response 500
          (json_dumps (PyLib := library_more)
             (PDict [("message",
                      PStr ("Internal error: '" +:+ type_name (PList [])
                              +:+ "' object has no attribute 'get'"))])))
  /\ plan_fetches (log (handler (H := library_more)
                          world_even list_event PNone)) = []
  /\ notifications (log (handler (H := library_more)
                           world_even list_event PNone)) = [].
Proof.
  apply (non_dict_body_500 (H := library_more) world_even list_event PNone
           (PStr secret_value) (PStr (dumps (PList [])))
           (PStr (sign (dumps (PList [])))) (PList []));
    vm_compute; reflexivity.
Defined.

Lemma secret_not_a_string_500_witness :
  outcome (handler (H := library_more) world_with_numeric_secret
             forged_event PNone)
  = Ok (Response 500
          (json_dumps (PyLib := library_more)
             (PDict [("message",
                      PStr ("Internal error: '" +:+ type_name (PInt 7)
                              +:+ "' object has no attribute 'encode'"))])))
  /\ plan_fetches (log (handler (H := library_more)
                          world_with_numeric_secret forged_event PNone)) = []
  /\ notifications (log (handler (H := library_more)
                           world_with_numeric_secret forged_event PNone))
     = [].
Proof.
  apply (secret_not_a_string_500 (H := library_more)
           world_with_numeric_secret forged_event PNone (PInt 7)
           (PStr (dumps handshake_payload)) (PStr "deadbeef")
           handshake_payload);
    vm_compute; reflexivity.
Defined.


Lemma unauthorized_single_request_witness :
  exists name,
    environ world_even !! "HMAC_SECRET_KEY_PARAM" = Some name
    /\ requests (log (handler world_even forged_event PNone))
       = [parameter_request world_even name].
Proof.
  apply (unauthorized_single_request world_even forged_event PNone
           (Response 401
              (json_dumps (PDict [("message", PStr "Invalid signature")]))));
    vm_compute; reflexivity.
Defined.

Lemma response_echoes_callback_witness :
  req_data (callback_request run_fields "passed" "Validation passed")
  = Some (encode
            (body (Response 200
                     (json_dumps
                        (task_results "passed" "Validation passed"))))).
Proof.
  apply (response_echoes_callback world_even run_event PNone
           (Response 200
              (json_dumps (task_results "passed" "Validation passed")))
           (callback_request run_fields "passed" "Validation passed")).
  - vm_compute. reflexivity.
  - reflexivity.
  - vm_compute. do 2 right. left. reflexivity.
  - reflexivity.
Defined.
